(** * carl-torch: the estimator lifecycle of [src/ml/base.py] and [src/ml/ratio.py]

    A shallow embedding of [Estimator], [ConditionalEstimator] and
    [RatioEstimator]: numpy arrays as lists of IEEE doubles (Rocq's primitive
    floats, which are Python's floats), Python exceptions as an inductive type,
    and the methods as functions in a state monad whose errors keep the state
    reached before the raise, as Python's exceptions do. *)

From Stdlib Require Import ZArith String Ascii Bool Lia.
From Stdlib Require Import PrimFloat SpecFloat FloatOps Uint63.
From Stdlib Require FloatAxioms.
From Stdlib Require Import List.
Import ListNotations.
Local Open Scope string_scope.

#[local] Set Warnings "-inexact-float,-register-all".

(** ** Python exceptions and the error/state monad *)

Inductive exn : Type :=
| ValueError (msg : string)
| RuntimeError (msg : string)
| TypeError (msg : string)
| KeyError (key : string)
| AttributeError (name : string)
| IndexError (msg : string)
| OverflowError (msg : string)
| AssertionError
| FileNotFoundError (path : string)
| ZeroDivisionError.

Inductive result (A : Type) : Type :=
| Ok (a : A)
| Err (e : exn).
Arguments Ok {A} a.
Arguments Err {A} e.

Definition rbind {A B} (r : result A) (k : A -> result B) : result B :=
  match r with Ok a => k a | Err e => Err e end.

Notation "x <-? r ;; k" := (rbind r (fun x => k))
  (at level 61, r at next level, right associativity).

Fixpoint rmap {A B} (f : A -> result B) (l : list A) : result (list B) :=
  match l with
  | [] => Ok []
  | a :: l' => b <-? f a ;; bs <-? rmap f l' ;; Ok (b :: bs)
  end.

(** A method call on state [S]: the result and the state when it returned
    or raised. *)
Definition M (S A : Type) : Type := S -> result A * S.

Definition ret {S A} (a : A) : M S A := fun s => (Ok a, s).
Definition bind {S A B} (m : M S A) (k : A -> M S B) : M S B :=
  fun s => match m s with
           | (Ok a, s') => k a s'
           | (Err e, s') => (Err e, s')
           end.
Definition raise {S A} (e : exn) : M S A := fun s => (Err e, s).
Definition get {S} : M S S := fun s => (Ok s, s).
Definition put {S} (s : S) : M S unit := fun _ => (Ok tt, s).
Definition lift {S A} (r : result A) : M S A := fun s => (r, s).

Notation "x <- m ;; k" := (bind m (fun x => k))
  (at level 61, m at next level, right associativity).
Notation "m ;;; k" := (bind m (fun _ => k))
  (at level 61, right associativity).
Notation "' p <- m ;; k" := (bind m (fun x => match x with p => k end))
  (at level 61, p pattern, m at next level, right associativity).

Definition is_err {A} (r : result A) : bool :=
  match r with Ok _ => false | Err _ => true end.

(** ** numpy arrays *)

(** A 1-d array, or a 2-d array with its column count and its rows. *)
Inductive ndarray : Type :=
| Vec (v : list float)
| Mat (ncols : nat) (rows : list (list float)).

(** [len(a)] and [a.shape[1]]. *)
Definition len (a : ndarray) : nat :=
  match a with Vec v => length v | Mat _ rows => length rows end.

Definition shape1 (a : ndarray) : result nat :=
  match a with
  | Vec _ => Err (IndexError "tuple index out of range")
  | Mat nc _ => Ok nc
  end.

Definition float_of_nat (n : nat) : float :=
  PrimFloat.of_uint63 (Uint63.of_Z (Z.of_nat n)).

Fixpoint map2 (f : float -> float -> float) (a b : list float) : list float :=
  match a, b with
  | x :: a', y :: b' => f x y :: map2 f a' b'
  | _, _ => []
  end.

(** numpy's binary operation between two 1-d operands that broadcast:
    equal lengths, or one of length 1. *)
Definition bcast (f : float -> float -> float) (a b : list float) : list float :=
  if Nat.eqb (length a) (length b) then map2 f a b
  else match b, a with
       | [y], _ => map (fun x => f x y) a
       | _, [x] => map (f x) b
       | _, _ => []
       end.

Definition bcast_ok (na nb : nat) : bool :=
  Nat.eqb na nb || Nat.eqb nb 1 || Nat.eqb na 1.

Definition bcast_len (na nb : nat) : nat := if Nat.eqb nb 1 then na else nb.

(** [a - v] for a 1-d [v]: the rows of [a] broadcast against [v]. *)
Definition sub_vec (a : ndarray) (v : list float) : result ndarray :=
  match a with
  | Vec x =>
      if bcast_ok (length x) (length v) then Ok (Vec (bcast PrimFloat.sub x v))
      else Err (ValueError "operands could not be broadcast together")
  | Mat nc rows =>
      if bcast_ok nc (length v)
      then Ok (Mat (bcast_len nc (length v)) (map (fun r => bcast PrimFloat.sub r v) rows))
      else Err (ValueError "operands could not be broadcast together")
  end.

(** [a /= v] in place: [v] must broadcast to the shape of [a] itself. *)
Definition idiv_vec (a : ndarray) (v : list float) : result ndarray :=
  match a with
  | Vec x =>
      if Nat.eqb (length v) (length x) || Nat.eqb (length v) 1
      then Ok (Vec (bcast PrimFloat.div x v))
      else Err (ValueError "non-broadcastable output operand")
  | Mat nc rows =>
      if Nat.eqb (length v) nc || Nat.eqb (length v) 1
      then Ok (Mat nc (map (fun r => bcast PrimFloat.div r v) rows))
      else Err (ValueError "non-broadcastable output operand")
  end.

(** [np.add.reduce(rows, axis=0)]: the first row, then each row added in turn;
    zeros of the column count for no rows. *)
Definition col_sums (nc : nat) (rows : list (list float)) : list float :=
  match rows with
  | [] => repeat 0%float nc
  | r :: rs => fold_left (map2 PrimFloat.add) rs r
  end.

(** [np.mean(x, axis=0)]. *)
Definition np_mean0 (nc : nat) (rows : list (list float)) : list float :=
  map (fun s => (s / float_of_nat (length rows))%float) (col_sums nc rows).

(** [np.std(x, axis=0)]: the square root of the mean squared deviation. *)
Definition np_std0 (nc : nat) (rows : list (list float)) : list float :=
  let m := np_mean0 nc rows in
  let sq := map (fun r => map (fun d => (d * d)%float) (map2 PrimFloat.sub r m)) rows in
  map PrimFloat.sqrt (np_mean0 nc sq).

(** [np.maximum]: NaN propagates. *)
Definition np_maximum (a b : float) : float :=
  if PrimFloat.is_nan a then a
  else if PrimFloat.is_nan b then b
  else if PrimFloat.ltb a b then b else a.

Definition std_floor : float := 1.0e-6.

(** ** JSON values and Python's [int], [float], [str] on them *)

(** What [json.load] returns: [null], booleans, ints, floats, strings, lists
    and dicts (as their key/value lists). *)
Inductive json : Type :=
| JNull
| JBool (b : bool)
| JInt (z : Z)
| JFloat (f : float)
| JStr (s : string)
| JList (l : list json)
| JObj (kv : list (string * json)).

Fixpoint dec_digits (fuel : nat) (n : Z) (acc : string) : string :=
  match fuel with
  | O => acc
  | S fuel' =>
      let acc' := String (ascii_of_nat (48 + Z.to_nat (Z.modulo n 10))) acc in
      if Z.eqb (Z.div n 10) 0 then acc' else dec_digits fuel' (Z.div n 10) acc'
  end.

(** [str(z)] for an int. *)
Definition z_to_dec (z : Z) : string :=
  let digits := dec_digits (S (Z.to_nat (Z.log2 (Z.abs z)))) (Z.abs z) "" in
  if Z.ltb z 0 then "-" ++ digits else digits.

(** [str(v)]: exact for strings, [None], booleans and ints; a float is shown as
    ["<float>"] (its shortest round-trip decimal is not computed here), and
    lists and dicts are shown by their brackets around their items. *)
Fixpoint py_str (v : json) : string :=
  match v with
  | JNull => "None"
  | JBool true => "True"
  | JBool false => "False"
  | JInt z => z_to_dec z
  | JFloat _ => "<float>"
  | JStr s => s
  | JList l => "[" ++ String.concat ", " (map py_str l) ++ "]"
  | JObj kv => "{" ++ String.concat ", " (map (fun p => fst p ++ ": " ++ py_str (snd p)) kv) ++ "}"
  end.

Definition digit_val (c : ascii) : option Z :=
  let n := nat_of_ascii c in
  if (Nat.leb 48 n && Nat.leb n 57)%bool then Some (Z.of_nat (n - 48)) else None.

Fixpoint parse_digits (s : string) (acc : Z) : option Z :=
  match s with
  | EmptyString => Some acc
  | String c s' =>
      match digit_val c with
      | Some d => parse_digits s' (acc * 10 + d)%Z
      | None => None
      end
  end.

(** [int(s)] for a string: an optional sign and decimal digits (surrounding
    whitespace and digit-group underscores, which Python also accepts, are
    not modelled). *)
Definition parse_int (s : string) : option Z :=
  match s with
  | String "-"%char (String _ _ as s') => option_map Z.opp (parse_digits s' 0)
  | String "+"%char (String _ _ as s') => parse_digits s' 0
  | String _ _ => parse_digits s 0
  | EmptyString => None
  end.

(** [int(f)] for a float: truncation toward zero. *)
Definition float_trunc (f : float) : result Z :=
  match Prim2SF f with
  | S754_zero _ => Ok 0%Z
  | S754_infinity _ => Err (OverflowError "cannot convert float infinity to integer")
  | S754_nan => Err (ValueError "cannot convert float NaN to integer")
  | S754_finite s m e =>
      let v := if Z.leb 0 e then Z.shiftl (Zpos m) e else Z.shiftr (Zpos m) (- e) in
      Ok (if s then Z.opp v else v)
  end.

Definition py_int (v : json) : result Z :=
  match v with
  | JInt z => Ok z
  | JBool b => Ok (if b then 1%Z else 0%Z)
  | JFloat f => float_trunc f
  | JStr s =>
      match parse_int s with
      | Some z => Ok z
      | None => Err (ValueError ("invalid literal for int() with base 10: " ++ s))
      end
  | JNull => Err (TypeError "int() argument must be a string, a bytes-like object or a real number, not 'NoneType'")
  | JList _ => Err (TypeError "int() argument must be a string, a bytes-like object or a real number, not 'list'")
  | JObj _ => Err (TypeError "int() argument must be a string, a bytes-like object or a real number, not 'dict'")
  end.

(** [float(z)] for an int: correctly rounded, [OverflowError] out of range. *)
Definition float_of_Z (z : Z) : result float :=
  let f := SF2Prim (binary_normalize FloatOps.prec FloatOps.emax z 0 false) in
  if PrimFloat.is_infinity f then Err (OverflowError "int too large to convert to float")
  else Ok f.

(** [float(v)]; for a string only integer literals are modelled. *)
Definition py_float (v : json) : result float :=
  match v with
  | JFloat f => Ok f
  | JInt z => float_of_Z z
  | JBool b => Ok (if b then 1%float else 0%float)
  | JStr s =>
      match parse_int s with
      | Some z => float_of_Z z
      | None => Err (ValueError ("could not convert string to float: " ++ s))
      end
  | JNull => Err (TypeError "float() argument must be a string or a real number, not 'NoneType'")
  | JList _ => Err (TypeError "float() argument must be a string or a real number, not 'list'")
  | JObj _ => Err (TypeError "float() argument must be a string or a real number, not 'dict'")
  end.

(** [for item in v]: the items of a list, the one-character strings of a
    string, the keys of a dict. *)
Definition py_iter (v : json) : result (list json) :=
  match v with
  | JList l => Ok l
  | JStr s => Ok (map (fun c => JStr (String c EmptyString)) (list_ascii_of_string s))
  | JObj kv => Ok (map (fun p => JStr (fst p)) kv)
  | JNull => Err (TypeError "'NoneType' object is not iterable")
  | JBool _ => Err (TypeError "'bool' object is not iterable")
  | JInt _ => Err (TypeError "'int' object is not iterable")
  | JFloat _ => Err (TypeError "'float' object is not iterable")
  end.

(** [d[k]] on a dict: the first binding of [k]. *)
Fixpoint lookup {V} (k : string) (d : list (string * V)) : option V :=
  match d with
  | [] => None
  | (k', v) :: d' => if String.eqb k k' then Some v else lookup k d'
  end.

Definition getitem {V} (d : list (string * V)) (k : string) : result V :=
  match lookup k d with Some v => Ok v | None => Err (KeyError k) end.

(** [d[k] = v]: replaces the value in place when [k] is bound, else appends. *)
Fixpoint setitem {V} (d : list (string * V)) (k : string) (v : V) : list (string * V) :=
  match d with
  | [] => [(k, v)]
  | (k', v') :: d' => if String.eqb k k' then (k, v) :: d' else (k', v') :: setitem d' k v
  end.

(** ** The estimator state *)

(** Modelled from the spec: [RatioModel] ([src/ml/models] is not in the
    repository), "the concrete neural network module construction": a network
    sized from [n_observables] and [n_hidden], with its activation and dropout
    probability and its learned parameters. A fresh network's initial
    parameters are not represented. *)
Record ratio_model : Type := mkRatioModel {
  rm_n_observables : option Z;
  rm_n_hidden : list Z;
  rm_activation : string;
  rm_dropout_prob : float;
  rm_params : list float
}.

Definition RatioModel (n_observables : option Z) (n_hidden : list Z)
    (activation : string) (dropout_prob : float) : ratio_model :=
  mkRatioModel n_observables n_hidden activation dropout_prob [].

(** [model.state_dict()]: the parameter tensors, whose shapes follow the
    layer sizes. *)
Record state_dict : Type := mkStateDict {
  sd_n_observables : option Z;
  sd_n_hidden : list Z;
  sd_params : list float
}.

Definition model_state_dict (m : ratio_model) : state_dict :=
  mkStateDict m.(rm_n_observables) m.(rm_n_hidden) m.(rm_params).

Fixpoint zlist_eqb (a b : list Z) : bool :=
  match a, b with
  | [], [] => true
  | x :: a', y :: b' => Z.eqb x y && zlist_eqb a' b'
  | _, _ => false
  end.

(** [model.load_state_dict(sd)]: strict loading refuses tensors of other shapes. *)
Definition load_state_dict (m : ratio_model) (sd : state_dict) : result ratio_model :=
  if (match sd.(sd_n_observables), m.(rm_n_observables) with
      | Some a, Some b => Z.eqb a b
      | None, None => true
      | _, _ => false
      end && zlist_eqb sd.(sd_n_hidden) m.(rm_n_hidden))%bool
  then Ok (mkRatioModel m.(rm_n_observables) m.(rm_n_hidden) m.(rm_activation)
             m.(rm_dropout_prob) sd.(sd_params))
  else Err (RuntimeError "Error(s) in loading state_dict for RatioModel").

(** The attributes of an [Estimator] ([base.py], [__init__]). [features] is
    the Python object the attribute holds: [None] ([JNull]), a list of column
    indices, or whatever a settings record stored there. *)
Record estimator : Type := mkEstimator {
  features : json;
  n_hidden : list Z;
  activation : string;
  dropout_prob : float;
  model : option ratio_model;
  n_observables : option Z;
  n_parameters : option Z;
  x_scaling_means : option (list float);
  x_scaling_stds : option (list float)
}.

Definition Estimator_init (features : json) (n_hidden : list Z) (activation : string)
    (dropout_prob : float) : estimator :=
  mkEstimator features n_hidden activation dropout_prob None None None None None.

(** [RatioEstimator()] with the default arguments. *)
Definition RatioEstimator_default : estimator :=
  Estimator_init JNull [100%Z] "tanh" 0.0%float.

Definition set_features (v : json) (e : estimator) : estimator :=
  mkEstimator v e.(n_hidden) e.(activation) e.(dropout_prob) e.(model)
    e.(n_observables) e.(n_parameters) e.(x_scaling_means) e.(x_scaling_stds).
Definition set_n_hidden (v : list Z) (e : estimator) : estimator :=
  mkEstimator e.(features) v e.(activation) e.(dropout_prob) e.(model)
    e.(n_observables) e.(n_parameters) e.(x_scaling_means) e.(x_scaling_stds).
Definition set_activation (v : string) (e : estimator) : estimator :=
  mkEstimator e.(features) e.(n_hidden) v e.(dropout_prob) e.(model)
    e.(n_observables) e.(n_parameters) e.(x_scaling_means) e.(x_scaling_stds).
Definition set_dropout_prob (v : float) (e : estimator) : estimator :=
  mkEstimator e.(features) e.(n_hidden) e.(activation) v e.(model)
    e.(n_observables) e.(n_parameters) e.(x_scaling_means) e.(x_scaling_stds).
Definition set_model (v : option ratio_model) (e : estimator) : estimator :=
  mkEstimator e.(features) e.(n_hidden) e.(activation) e.(dropout_prob) v
    e.(n_observables) e.(n_parameters) e.(x_scaling_means) e.(x_scaling_stds).
Definition set_n_observables (v : option Z) (e : estimator) : estimator :=
  mkEstimator e.(features) e.(n_hidden) e.(activation) e.(dropout_prob) e.(model)
    v e.(n_parameters) e.(x_scaling_means) e.(x_scaling_stds).
Definition set_n_parameters (v : option Z) (e : estimator) : estimator :=
  mkEstimator e.(features) e.(n_hidden) e.(activation) e.(dropout_prob) e.(model)
    e.(n_observables) v e.(x_scaling_means) e.(x_scaling_stds).
Definition set_x_scaling (m s : option (list float)) (e : estimator) : estimator :=
  mkEstimator e.(features) e.(n_hidden) e.(activation) e.(dropout_prob) e.(model)
    e.(n_observables) e.(n_parameters) m s.

(** A [ConditionalEstimator] adds the parameter scaling attributes. *)
Record cond_estimator : Type := mkCondEstimator {
  base : estimator;
  theta_scaling_means : option (list float);
  theta_scaling_stds : option (list float)
}.

(** ** The scalers ([base.py]) *)

Definition is_some {A} (o : option A) : bool :=
  match o with Some _ => true | None => false end.

(** [Estimator.initialize_input_transform(x, transform, overwrite)] for a
    2-d [x] with [nc] columns and rows [rows]. *)
Definition initialize_input_transform (nc : nat) (rows : list (list float))
    (transform overwrite : bool) (e : estimator) : estimator :=
  if (is_some e.(x_scaling_stds) && is_some e.(x_scaling_means) && negb overwrite)%bool
  then e
  else if transform
  then set_x_scaling (Some (np_mean0 nc rows))
         (Some (map (fun s => np_maximum s std_floor) (np_std0 nc rows))) e
  else
    let n_parameters := length rows in (* x.shape[0] *)
    set_x_scaling (Some (repeat 0%float n_parameters)) (Some (repeat 1%float n_parameters)) e.

(** [Estimator._transform_inputs(x)] for a numpy array. *)
Definition _transform_inputs (e : estimator) (x : ndarray) : result ndarray :=
  match e.(x_scaling_means), e.(x_scaling_stds) with
  | Some m, Some s => x_scaled <-? sub_vec x m ;; idiv_vec x_scaled s
  | _, _ => Ok x
  end.

(** [ConditionalEstimator.initialize_parameter_transform(theta, transform,
    overwrite)] for a 2-d [theta]. *)
Definition initialize_parameter_transform (nc : nat) (rows : list (list float))
    (transform overwrite : bool) (c : cond_estimator) : cond_estimator :=
  if (is_some c.(base).(x_scaling_stds) && is_some c.(base).(x_scaling_means) && negb overwrite)%bool
  then c
  else if transform
  then mkCondEstimator c.(base) (Some (np_mean0 nc rows))
         (Some (map (fun s => np_maximum s std_floor) (np_std0 nc rows)))
  else mkCondEstimator c.(base) None None.

(** ** The settings codec *)

Definition opt_json (o : option Z) : json :=
  match o with Some z => JInt z | None => JNull end.

(** [Estimator._wrap_settings()]. *)
Definition Estimator_wrap_settings (e : estimator) : list (string * json) :=
  [("n_observables", opt_json e.(n_observables));
   ("n_parameters", opt_json e.(n_parameters));
   ("features", e.(features));
   ("n_hidden", JList (map JInt e.(n_hidden)));
   ("activation", JStr e.(activation));
   ("dropout_prob", JFloat e.(dropout_prob))].

(** [RatioEstimator._wrap_settings()]. *)
Definition RatioEstimator_wrap_settings (e : estimator) : list (string * json) :=
  setitem (Estimator_wrap_settings e) "estimator_type" (JStr "double_parameterized_ratio").

Definition modify {S} (f : S -> S) : M S unit := fun s => (Ok tt, f s).

Definition int_items (v : json) : result (list Z) :=
  items <-? py_iter v ;; rmap py_int items.

Definition is_None_str (v : json) : bool :=
  match v with JStr s => String.eqb s "None" | _ => false end.

(** [Estimator._unwrap_settings(settings)]: each attribute is assigned as soon
    as its value is converted. *)
Definition Estimator_unwrap_settings (settings : list (string * json)) : M estimator unit :=
  match lookup "estimator_type" settings with
  | None =>
      raise (RuntimeError ("Can't find estimator type information in file. Maybe this file was created with"
                           ++ " an incompatible MadMiner version < v0.3.0?"))
  | Some _ =>
      n <- lift (v <-? getitem settings "n_observables" ;; py_int v) ;;
      modify (set_n_observables (Some n)) ;;;
      p <- lift (v <-? getitem settings "n_parameters" ;; py_int v) ;;
      modify (set_n_parameters (Some p)) ;;;
      h <- lift (v <-? getitem settings "n_hidden" ;; int_items v) ;;
      modify (set_n_hidden h) ;;;
      a <- lift (getitem settings "activation") ;;
      modify (set_activation (py_str a)) ;;;
      f <- lift (getitem settings "features") ;;
      modify (set_features f) ;;;
      e <- get ;;
      (if is_None_str e.(features) then modify (set_features JNull) else ret tt) ;;;
      e <- get ;;
      (match e.(features) with
       | JNull => ret tt
       | f => fs <- lift (int_items f) ;; modify (set_features (JList (map JInt fs)))
       end) ;;;
      match lookup "dropout_prob" settings with
      | None => modify (set_dropout_prob 0.0%float)
      | Some v => d <- lift (py_float v) ;; modify (set_dropout_prob d)
      end
  end.

(** [RatioEstimator._unwrap_settings(settings)]: the base decoding first, then
    the type tag. *)
Definition RatioEstimator_unwrap_settings (settings : list (string * json)) : M estimator unit :=
  Estimator_unwrap_settings settings ;;;
  t <- lift (getitem settings "estimator_type") ;;
  if String.eqb (py_str t) "double_parameterized_ratio" then ret tt
  else raise (RuntimeError ("Saved model is an incompatible estimator type " ++ py_str t ++ ".")).

(** [RatioEstimator._create_model()]. *)
Definition _create_model : M estimator unit :=
  modify (fun e => set_model (Some (RatioModel e.(n_observables) e.(n_hidden)
                                      e.(activation) e.(dropout_prob))) e).

(** ** Files, the caller's data dictionary and the external collaborators *)

(** A value the caller puts in the training dictionary or passes for [x]. *)
Inductive pyval : Type :=
| VNone
| VArr (a : ndarray)
| VPath (p : string)
| VFloat (f : float)
| VDict (keys : list string).

(** What a file holds: a JSON document, a [.npy] array, a pickled state dict,
    a pickled model, a pickled metadata dict. *)
Inductive file : Type :=
| FJson (v : json)
| FArr (a : ndarray)
| FState (sd : state_dict)
| FModel (m : ratio_model)
| FPickle (keys : list string).

(** Calls made to the loss factory. *)
Inductive ext_call : Type :=
| CallGetLoss (method : string) (alpha : float) (w : pyval) (loss_type : string).

(** Modelled from the spec: the collaborators of [ratio.py] whose code is not
    in the repository ([functions.get_loss], [functions.get_optimizer],
    [trainers.RatioTrainer], [evaluate.evaluate_ratio_model],
    [evaluate.evaluate_performance_model]), by their interfaces in the spec's
    section 6; the Trainer's fit loop updates the model's learned parameters
    and hands back its result record. *)
Record collaborators : Type := mkCollaborators {
  get_loss : string -> float -> pyval -> string -> result unit;
  get_optimizer : string -> option float -> result unit;
  trainer_train : ratio_model -> result (ratio_model * list float);
  evaluate_ratio_model : ratio_model -> pyval -> result (list float * list float);
  evaluate_performance_model : ratio_model -> pyval -> pyval -> result unit
}.

(** The estimator, the file system, the caller's [input_data_dict] and the
    log of loss-factory calls. *)
Record world : Type := mkWorld {
  est : estimator;
  fs : list (string * file);
  input_data : list (string * pyval);
  calls : list ext_call
}.

Definition on_est {A} (m : M estimator A) : M world A :=
  fun w => let (r, e') := m w.(est) in (r, mkWorld e' w.(fs) w.(input_data) w.(calls)).

Definition write_file (path : string) (f : file) : M world unit :=
  modify (fun w => mkWorld w.(est) (setitem w.(fs) path f) w.(input_data) w.(calls)).

Definition read_file (path : string) : M world file :=
  w <- get ;;
  match lookup path w.(fs) with
  | Some f => ret f
  | None => raise (FileNotFoundError path)
  end.

Definition log_call (c : ext_call) : M world unit :=
  modify (fun w => mkWorld w.(est) w.(fs) w.(input_data) (w.(calls) ++ [c])).

Definition set_input_data (d : list (string * pyval)) : M world unit :=
  modify (fun w => mkWorld w.(est) w.(fs) d w.(calls)).

(** Modelled from the spec: [load_and_check] ([src/ml/utils/tools.py] is not in
    the repository), the array loader that "accepts either an in-memory array
    or a path to a serialized array": a path is read from the file system, any
    other value is handed back as it is. *)
Definition load_and_check (fsys : list (string * file)) (v : pyval) : result pyval :=
  match v with
  | VPath p =>
      match lookup p fsys with
      | Some (FArr a) => Ok (VArr a)
      | Some _ => Err (ValueError ("Cannot load file " ++ p ++ " as an array"))
      | None => Err (FileNotFoundError p)
      end
  | _ => Ok v
  end.

(** ** Persistence ([Estimator.save], [Estimator.load]) *)

(** [Estimator.save(filename, save_model)] on a [RatioEstimator]. Directories
    are not represented, so [create_missing_folders] has nothing to do, and
    [json.dump] / [json.load] store and give back the JSON value itself. *)
Definition save (filename : string) (save_model : bool) : M world unit :=
  w <- get ;;
  match w.(est).(model) with
  | None => raise (ValueError "No model -- train or load model before saving!")
  | Some m =>
      write_file (filename ++ "_settings.json") (FJson (JObj (RatioEstimator_wrap_settings w.(est)))) ;;;
      (match w.(est).(x_scaling_stds), w.(est).(x_scaling_means) with
       | Some s, Some mu =>
           write_file (filename ++ "_x_means.npy") (FArr (Vec mu)) ;;;
           write_file (filename ++ "_x_stds.npy") (FArr (Vec s))
       | _, _ => ret tt
       end) ;;;
      write_file (filename ++ "_state_dict.pt") (FState (model_state_dict m)) ;;;
      if save_model then write_file (filename ++ "_model.pt") (FModel m) else ret tt
  end.

(** [json.load(f)], then [settings[...]], which needs a dict. *)
Definition json_settings (f : file) : result (list (string * json)) :=
  match f with
  | FJson (JObj kv) => Ok kv
  | FJson _ => Err (TypeError "settings is not subscriptable by a string")
  | _ => Err (ValueError "Expecting value")
  end.

(** [np.load] of a scaling vector (a 1-d array). *)
Definition np_load_vec (f : file) : result (list float) :=
  match f with
  | FArr (Vec v) => Ok v
  | _ => Err (ValueError "scaling file does not hold a 1-d array")
  end.

Definition torch_load_state_dict (f : file) : result state_dict :=
  match f with
  | FState sd => Ok sd
  | _ => Err (RuntimeError "Error(s) in loading state_dict for RatioModel")
  end.

Definition set_x_scaling_w (m s : option (list float)) : M world unit :=
  on_est (modify (set_x_scaling m s)).

(** [Estimator.load(filename)] on a [RatioEstimator]. A missing scaling file
    is caught ([except FileNotFoundError]) and leaves both stats absent. *)
Definition load (filename : string) : M world unit :=
  f <- read_file (filename ++ "_settings.json") ;;
  settings <- lift (json_settings f) ;;
  on_est (RatioEstimator_unwrap_settings settings) ;;;
  on_est _create_model ;;;
  w <- get ;;
  (match lookup (filename ++ "_x_means.npy") w.(fs) with
   | None => set_x_scaling_w None None
   | Some fm =>
       mu <- lift (np_load_vec fm) ;;
       set_x_scaling_w (Some mu) w.(est).(x_scaling_stds) ;;;
       match lookup (filename ++ "_x_stds.npy") w.(fs) with
       | None => set_x_scaling_w None None
       | Some fsd => s <- lift (np_load_vec fsd) ;; set_x_scaling_w (Some mu) (Some s)
       end
   end) ;;;
  f <- read_file (filename ++ "_state_dict.pt") ;;
  sd <- lift (torch_load_state_dict f) ;;
  w <- get ;;
  match w.(est).(model) with
  | Some m => m' <- lift (load_state_dict m sd) ;; on_est (modify (set_model (Some m')))
  | None => raise (AttributeError "load_state_dict")
  end.

(** ** Evaluation ([RatioEstimator.evaluate_ratio], [evaluate_performance]) *)

(** A column index of [x[:, i]] for [nc] columns; negative indices count
    from the end. *)
Definition col_index (nc : nat) (v : json) : result nat :=
  match v with
  | JInt i =>
      if (Z.leb (- Z.of_nat nc) i && Z.ltb i (Z.of_nat nc))%bool
      then Ok (Z.to_nat (if Z.ltb i 0 then i + Z.of_nat nc else i)%Z)
      else Err (IndexError "index is out of bounds for axis 1")
  | _ => Err (IndexError "only integers and integer arrays are valid indices")
  end.

(** [x[:, features]]: a list selects columns, an int selects one column as a
    1-d array. *)
Definition select_features (a : ndarray) (f : json) : result ndarray :=
  match a, f with
  | Mat nc rows, JList l =>
      idx <-? rmap (col_index nc) l ;;
      Ok (Mat (length idx) (map (fun r => map (fun j => nth j r 0%float) idx) rows))
  | Mat nc rows, JInt _ =>
      j <-? col_index nc f ;; Ok (Vec (map (fun r => nth j r 0%float) rows))
  | Mat _ _, _ => Err (IndexError "only integers and integer arrays are valid indices")
  | Vec _, _ => Err (IndexError "too many indices for array")
  end.

(** [if self.features is not None: x = x[:, self.features]] *)
Definition restrict_features (e : estimator) (x : pyval) : result pyval :=
  match e.(features) with
  | JNull => Ok x
  | f =>
      match x with
      | VArr a => a' <-? select_features a f ;; Ok (VArr a')
      | _ => Err (TypeError "object is not subscriptable")
      end
  end.

(** [Estimator._transform_inputs(x)] for any value the loader hands back. *)
Definition transform_inputs_val (e : estimator) (x : pyval) : result pyval :=
  match e.(x_scaling_means), e.(x_scaling_stds) with
  | Some m, Some s =>
      match x with
      | VArr a => a' <-? _transform_inputs e a ;; Ok (VArr a')
      | VFloat f => a' <-? idiv_vec (Vec (map (fun mu => (f - mu)%float) m)) s ;; Ok (VArr a')
      | _ => Err (TypeError "unsupported operand type(s) for -")
      end
  | _, _ => Ok x
  end.

(** [self.scaling_method]: no class and no method of the repository sets this
    attribute. *)
Definition getattr_scaling_method (e : estimator) : result unit :=
  Err (AttributeError "'RatioEstimator' object has no attribute 'scaling_method'").

(** [self._transform_inputs(x, scaling=...)]: [_transform_inputs] has no
    [scaling] parameter. *)
Definition transform_inputs_scaling_kw (e : estimator) (x : pyval) (scaling : unit) : result pyval :=
  Err (TypeError "_transform_inputs() got an unexpected keyword argument 'scaling'").

Definition no_model_eval : exn :=
  ValueError "No model -- train or load model before evaluating it!".

(** [RatioEstimator.evaluate_ratio(x)]. *)
Definition evaluate_ratio (c : collaborators) (x : pyval) : M world (list float * list float) :=
  w <- get ;;
  match w.(est).(model) with
  | None => raise no_model_eval
  | Some m =>
      x <- lift (load_and_check w.(fs) x) ;;
      scaling <- lift (getattr_scaling_method w.(est)) ;;
      x <- lift (transform_inputs_scaling_kw w.(est) x scaling) ;;
      x <- lift (restrict_features w.(est) x) ;;
      lift (c.(evaluate_ratio_model) m x)
  end.

(** [RatioEstimator.evaluate_performance(x, y)]. *)
Definition evaluate_performance (c : collaborators) (x y : pyval) : M world unit :=
  w <- get ;;
  match w.(est).(model) with
  | None => raise no_model_eval
  | Some m =>
      x <- lift (load_and_check w.(fs) x) ;;
      y <- lift (load_and_check w.(fs) y) ;;
      x <- lift (transform_inputs_val w.(est) x) ;;
      x <- lift (restrict_features w.(est) x) ;;
      lift (c.(evaluate_performance_model) m x y)
  end.

(** ** Training ([RatioEstimator.train]) *)

(** The arguments of [train] that the method reads besides the data
    dictionary; [optimizer_kwargs] only extends the optimizer's keyword
    arguments and the fit-loop settings go to the Trainer unread. *)
Record train_args : Type := mkTrainArgs {
  method : string;
  alpha : float;
  optimizer : string;
  nesterov_momentum : option float;
  scale_inputs : bool;
  memmap : bool;
  plot_inputs : bool;
  intermediate_stats_dist : bool;
  global_name : string;
  nentries : Z;
  loss_type : string
}.

Definition required_list : list string := ["X_train"; "y_train"; "w_train"].
Definition optional_list : list string := ["X0_train"; "w0_train"; "X1_train"; "w1_train"].

Definition has_key {V} (k : string) (d : list (string * V)) : bool := is_some (lookup k d).

(** [input_data_dict.get(k)]. *)
Definition dict_get (d : list (string * pyval)) (k : string) : pyval :=
  match lookup k d with Some v => v | None => VNone end.

(** The loading loop: each present key's value is replaced by the loader's. *)
Fixpoint load_inputs (keys : list string) : M world unit :=
  match keys with
  | [] => ret tt
  | k :: ks =>
      w <- get ;;
      (match lookup k w.(input_data) with
       | Some checking =>
           v <- lift (load_and_check w.(fs) checking) ;;
           set_input_data (setitem w.(input_data) k v)
       | None => ret tt
       end) ;;;
      load_inputs ks
  end.

(** [v.shape], which only arrays have. *)
Definition as_array (v : pyval) : result ndarray :=
  match v with
  | VArr a => Ok a
  | VNone => Err (AttributeError "'NoneType' object has no attribute 'shape'")
  | VPath _ => Err (AttributeError "'str' object has no attribute 'shape'")
  | VFloat _ => Err (AttributeError "'float' object has no attribute 'shape'")
  | VDict _ => Err (AttributeError "'dict' object has no attribute 'shape'")
  end.

(** [len(v)]. *)
Definition py_len (v : pyval) : result nat :=
  match v with
  | VArr a => Ok (len a)
  | VPath s => Ok (String.length s)
  | VDict keys => Ok (length keys)
  | VNone => Err (TypeError "object of type 'NoneType' has no len()")
  | VFloat _ => Err (TypeError "object of type 'float' has no len()")
  end.

Definition array_size (a : ndarray) : nat :=
  match a with Vec v => length v | Mat nc rows => nc * length rows end.

(** [bool(v)]: an array of more than one element has no truth value. *)
Definition py_truth (v : pyval) : result bool :=
  match v with
  | VNone => Ok false
  | VDict keys => Ok (negb (Nat.eqb (length keys) 0))
  | VPath s => Ok (negb (Nat.eqb (String.length s) 0))
  | VFloat f => Ok (negb (PrimFloat.eqb f 0%float))
  | VArr a =>
      match a with
      | Vec [f] | Mat _ [[f]] => Ok (negb (PrimFloat.eqb f 0%float))
      | _ =>
          if Nat.eqb (array_size a) 0 then Ok false
          else Err (ValueError "The truth value of an array with more than one element is ambiguous")
      end
  end.

Definition metadata_path (global_name : string) (nentries : Z) : string :=
  "data/" ++ global_name ++ "/metaData_" ++ z_to_dec nentries ++ ".pkl".

(** [pickle.load] of the metadata file. *)
Definition unpickle_meta (f : file) : result pyval :=
  match f with
  | FPickle keys => Ok (VDict keys)
  | _ => Err (ValueError "could not unpickle the metadata file")
  end.

(** The plotting branch of the scaling step, taken when [plot_inputs] is set
    and the metadata is truthy: [x0] and [x1] are rescaled, then the binning
    loop reads column [idx] of [x0] and [self.divisions], an attribute no code
    of the repository sets ([np.percentile] is taken not to raise). *)
Definition plot_transformed_inputs (e : estimator) (meta x0 x1 : pyval) : result unit :=
  x0 <-? transform_inputs_val e x0 ;;
  _ <-? transform_inputs_val e x1 ;;
  match meta with
  | VDict [] => Ok tt
  | VDict (_ :: _) =>
      match x0 with
      | VArr a =>
          _ <-? select_features a (JInt 0) ;;
          Err (AttributeError "'RatioEstimator' object has no attribute 'divisions'")
      | _ => Err (TypeError "object is not subscriptable")
      end
  | _ => Err (AttributeError "object has no attribute 'items'")
  end.

(** The check that all required data exists. *)
Definition check_required : M world unit :=
  w0 <- get ;;
  if forallb (fun k => has_key k w0.(input_data)) required_list then ret tt
  else raise (KeyError "Unable to look up all required data, please have at least prepared with keys ['X_train', 'y_train', 'w_train']").

Definition is_None (v : pyval) : bool := match v with VNone => true | _ => false end.
Definition json_is_None (v : json) : bool := match v with JNull => true | _ => false end.

(** [external_validation = x_val is not None and y_val is not None] *)
Definition external_validation (x_val y_val : pyval) : bool :=
  negb (is_None x_val) && negb (is_None y_val).

(** "Infer dimensions of problem": [x.shape[1]], and the assertion on the
    external validation split. *)
Definition infer_dims (x x_val y_val : pyval) : result (ndarray * nat * option ndarray) :=
  xa <-? as_array x ;;
  n_obs <-? shape1 xa ;;
  if external_validation x_val y_val then
    xv <-? as_array x_val ;;
    ncv <-? shape1 xv ;;
    if Nat.eqb ncv n_obs then Ok (xa, n_obs, Some xv) else Err AssertionError
  else Ok (xa, n_obs, None).

(** "trying to load metadata". *)
Definition find_metadata (d : list (string * pyval)) (fsys : list (string * file))
    (a : train_args) : result pyval :=
  match dict_get d "metaData" with
  | VNone =>
      match lookup (metadata_path a.(global_name) a.(nentries)) fsys with
      | Some f => unpickle_meta f
      | None => Ok VNone
      end
  | m => Ok m
  end.

(** The rows of [x] as [np.mean(x, axis=0)] and [x.shape[0]] see them: a 1-d
    [x] as one column (its 0-d mean broadcasts as a length-1 vector). *)
Definition as_rows (x : ndarray) : nat * list (list float) :=
  match x with
  | Mat nc rows => (nc, rows)
  | Vec v => (1, map (fun f => [f]) v)
  end.

Definition transform_opt (e : estimator) (x_val : option ndarray) : result (option ndarray) :=
  match x_val with
  | Some xv => xv' <-? _transform_inputs e xv ;; Ok (Some xv')
  | None => Ok None
  end.

(** "Scale features". *)
Definition scale_features (a : train_args) (meta x0 x1 : pyval) (xa : ndarray)
    (x_val : option ndarray) : M world (ndarray * option ndarray) :=
  let '(nc, rows) := as_rows xa in
  if a.(scale_inputs) then
    on_est (modify (initialize_input_transform nc rows true false)) ;;;
    e <- on_est get ;;
    xa <- lift (_transform_inputs e xa) ;;
    x_val <- lift (transform_opt e x_val) ;;
    (if a.(plot_inputs) then
       t <- lift (py_truth meta) ;;
       if t then lift (plot_transformed_inputs e meta x0 x1) else ret tt
     else ret tt) ;;;
    ret (xa, x_val)
  else
    on_est (modify (initialize_input_transform nc rows false false)) ;;;
    ret (xa, x_val).

(** "Features": [x = x[:, self.features]] and [n_observables = x.shape[1]]. *)
Definition restrict_train_features (f : json) (xa : ndarray) (n_obs : nat)
    (x_val : option ndarray) : result (ndarray * nat * option ndarray) :=
  if json_is_None f then Ok (xa, n_obs, x_val)
  else
    xa <-? select_features xa f ;;
    n <-? shape1 xa ;;
    x_val <-? (match x_val with
               | Some xv => xv <-? select_features xv f ;; Ok (Some xv)
               | None => Ok None
               end) ;;
    Ok (xa, n, x_val).

(** "Check consistency of input with model". *)
Definition check_observables (n_obs : nat) : M world unit :=
  on_est (modify (fun e => match e.(n_observables) with
                           | None => set_n_observables (Some (Z.of_nat n_obs)) e
                           | Some _ => e
                           end)) ;;;
  e <- on_est get ;;
  match e.(n_observables) with
  | Some n =>
      if Z.eqb (Z.of_nat n_obs) n then ret tt
      else raise (RuntimeError ("Number of observables does not match model: "
                                ++ z_to_dec (Z.of_nat n_obs) ++ " vs " ++ z_to_dec n))
  | None => ret tt
  end.

(** "Create model". *)
Definition create_model_if_missing : M world unit :=
  e <- on_est get ;;
  match e.(model) with
  | None => on_est _create_model
  | Some _ => ret tt
  end.

(** [if w is None: w = len(x0)/len(x1)] *)
Definition loss_weight (w x0 x1 : pyval) : result pyval :=
  match w with
  | VNone =>
      n0 <-? py_len x0 ;;
      n1 <-? py_len x1 ;;
      if Nat.eqb n1 0 then Err ZeroDivisionError
      else Ok (VFloat (float_of_nat n0 / float_of_nat n1)%float)
  | _ => Ok w
  end.

(** "Losses": the weight, then [get_loss(method, alpha, w, loss_type)]. *)
Definition losses (c : collaborators) (a : train_args) (w x0 x1 : pyval) : M world unit :=
  w <- lift (loss_weight w x0 x1) ;;
  log_call (CallGetLoss a.(method) a.(alpha) w a.(loss_type)) ;;;
  lift (c.(get_loss) a.(method) a.(alpha) w a.(loss_type)).

(** [feature_data], when [intermediate_stats_dist] asks for it:
    [list(metaDataDict.keys())]. *)
Definition feature_data (a : train_args) (meta : pyval) : result unit :=
  if a.(intermediate_stats_dist) then
    match meta with
    | VDict _ => Ok tt
    | _ => Err (AttributeError "object has no attribute 'keys'")
    end
  else Ok tt.

(** "Train model": the Trainer's fit loop on [self.model]. *)
Definition fit (c : collaborators) : M world (list float) :=
  e <- on_est get ;;
  match e.(model) with
  | Some m =>
      r <- lift (c.(trainer_train) m) ;;
      on_est (modify (set_model (Some (fst r)))) ;;;
      ret (snd r)
  | None => raise (AttributeError "'NoneType' object has no attribute 'train'")
  end.

(** [RatioEstimator.train] from [x = input_data_dict.get("X_train")] on. *)
Definition train_body (c : collaborators) (a : train_args) : M world (list float) :=
  wd <- get ;;
  let d := wd.(input_data) in
  '(xa, n_obs, x_val) <- lift (infer_dims (dict_get d "X_train") (dict_get d "X_val") (dict_get d "y_val")) ;;
  meta <- lift (find_metadata d wd.(fs) a) ;;
  '(xa, x_val) <- scale_features a meta (dict_get d "X0_train") (dict_get d "X1_train") xa x_val ;;
  e <- on_est get ;;
  '(xa, n_obs, x_val) <- lift (restrict_train_features e.(features) xa n_obs x_val) ;;
  check_observables n_obs ;;;
  create_model_if_missing ;;;
  losses c a (dict_get d "w_train") (dict_get d "X0_train") (dict_get d "X1_train") ;;;
  lift (c.(get_optimizer) a.(optimizer) a.(nesterov_momentum)) ;;;
  lift (feature_data a meta) ;;;
  fit c.

(** [RatioEstimator.train(method, input_data_dict, ...)] up to the Trainer's
    result record. The caller's [input_data_dict] is [input_data] of the
    world, so its in-place updates outlive the call. *)
Definition train (c : collaborators) (a : train_args) : M world (list float) :=
  check_required ;;;
  (* Load training data *)
  load_inputs (required_list ++ optional_list) ;;;
  train_body c a.

(** ** Concrete inputs for the examples *)

(** Collaborators that accept every call; the Trainer reports one loss. *)
Definition accepting_collaborators : collaborators :=
  mkCollaborators (fun _ _ _ _ => Ok tt) (fun _ _ => Ok tt)
    (fun m => Ok (m, [1.0%float])) (fun _ _ => Ok ([], [])) (fun _ _ _ => Ok tt).

(** [train(method="carl", ...)] with the defaults, [scale_inputs] as given. *)
Definition carl_args (scale : bool) : train_args :=
  mkTrainArgs "carl" 1.0%float "amsgrad" None scale false false false "" (-1)%Z "regular".

(** Three samples of two observables, no sample weights, one numerator sample
    given inline and two denominator samples given by a file path. *)
Definition example_data : list (string * pyval) :=
  [("X_train", VArr (Mat 2 [[1; 2]; [3; 4]; [5; 6]]%float));
   ("y_train", VArr (Vec [0; 1; 0]%float));
   ("w_train", VNone);
   ("X0_train", VArr (Mat 2 [[1; 2]]%float));
   ("X1_train", VPath "x1.npy")].

Definition example_files : list (string * file) :=
  [("x1.npy", FArr (Mat 2 [[3; 4]; [5; 6]]%float))].

Definition example_world : world :=
  mkWorld RatioEstimator_default example_files example_data [].

(** The estimator after a first [train] on [example_world]. *)
Definition trained_world : world :=
  snd (train accepting_collaborators (carl_args true) example_world).

(** A later batch with three observables. *)
Definition wider_data : list (string * pyval) :=
  [("X_train", VArr (Mat 3 [[1; 2; 3]]%float));
   ("y_train", VArr (Vec [0]%float));
   ("w_train", VNone)].

(** A settings record of another estimator type, with every field present. *)
Definition foreign_settings : list (string * json) :=
  [("n_observables", JInt 3); ("n_parameters", JInt 1); ("features", JNull);
   ("n_hidden", JList [JInt 8; JInt 4]); ("activation", JStr "relu");
   ("dropout_prob", JFloat 0.0%float); ("estimator_type", JStr "score")].

(** The same record with [n_parameters] null, as [save] writes it. *)
Definition foreign_settings_null : list (string * json) :=
  [("n_observables", JInt 3); ("n_parameters", JNull); ("features", JNull);
   ("n_hidden", JList [JInt 8; JInt 4]); ("activation", JStr "relu");
   ("dropout_prob", JFloat 0.0%float); ("estimator_type", JStr "score")].

Definition missing_type_msg : string :=
  "Can't find estimator type information in file. Maybe this file was created with"
  ++ " an incompatible MadMiner version < v0.3.0?".

Definition int_None_msg : string :=
  "int() argument must be a string, a bytes-like object or a real number, not 'NoneType'".

(** The observable count after feature restriction, for [nc] columns. *)
Definition effective_count (f : json) (nc : nat) : option nat :=
  match f with
  | JNull => Some nc
  | JList l => Some (length l)
  | _ => None
  end.

(** Every key of the dictionary that the loader accepts: the loop loads it. *)
Definition loads_all (fsys : list (string * file)) (d : list (string * pyval)) (keys : list string) : bool :=
  forallb (fun k => match lookup k d with
                    | Some v => negb (is_err (load_and_check fsys v))
                    | None => true
                    end) keys.

(** Every loss-factory call of [cs] carries the weight [loss_weight] computes
    from [wv], [x0] and [x1]. *)
Definition calls_weighted (wv x0 x1 : pyval) (cs : list ext_call) : Prop :=
  forall m al wf lt, In (CallGetLoss m al wf lt) cs -> loss_weight wv x0 x1 = Ok wf.

(** A trained network of two inputs and hidden layers (8, 4). *)
Definition saved_model : ratio_model :=
  mkRatioModel (Some 2%Z) [8%Z; 4%Z] "relu" 0.0%float [0.5; -0.25]%float.

(** An estimator with both counts set, a feature selection, a model of its
    configuration and both scaling stats. *)
Definition saved_estimator : estimator :=
  mkEstimator (JList [JInt 0; JInt 1]) [8%Z; 4%Z] "relu" 0.0%float (Some saved_model)
    (Some 2%Z) (Some 1%Z) (Some [1.0; 2.0]%float) (Some [0.5; 0.5]%float).

Definition saved_world : world :=
  mkWorld saved_estimator [("other.npy", FArr (Vec [1.0]%float))] [] [].

(** A settings record as an older file holds it: [features] as the string
    ["None"] and no [dropout_prob]. *)
Definition legacy_settings : list (string * json) :=
  [("estimator_type", JStr "double_parameterized_ratio"); ("n_observables", JInt 3);
   ("n_parameters", JInt 1); ("n_hidden", JList [JInt 8; JInt 4]);
   ("activation", JStr "relu"); ("features", JStr "None")].

(** ** Parameter scaling ([ConditionalEstimator._transform_parameters]) *)

(** [a - v[np.newaxis, :]]: [v] as a 2-d array of one row; a 1-d [a]
    broadcasts against it to a 2-d array of one row. *)
Definition sub_row (a : ndarray) (v : list float) : result ndarray :=
  match a with
  | Vec x =>
      if bcast_ok (length x) (length v)
      then Ok (Mat (bcast_len (length x) (length v)) [bcast PrimFloat.sub x v])
      else Err (ValueError "operands could not be broadcast together")
  | Mat _ _ => sub_vec a v
  end.

(** [ConditionalEstimator._transform_parameters(theta)] for a numpy array;
    the in-place [/= stds[np.newaxis, :]] broadcasts like [/= stds]. *)
Definition _transform_parameters (c : cond_estimator) (theta : ndarray) : result ndarray :=
  match c.(theta_scaling_means), c.(theta_scaling_stds) with
  | Some m, Some s => theta_scaled <-? sub_row theta m ;; idiv_vec theta_scaled s
  | _, _ => Ok theta
  end.

(** ** The driver script [src/train.py] *)






(** [m] keeps [P] of the state whether it returns or raises. *)
Definition preserves {S A} (P : S -> Prop) (m : M S A) : Prop :=
  forall s, P s -> P (snd (m s)).

(** * Proofs *)

Create HintDb preserves.

Lemma preserves_bind {S A B} (P : S -> Prop) (m : M S A) (k : A -> M S B) :
  preserves P m -> (forall a, preserves P (k a)) -> preserves P (bind m k).
Proof.
  intros Hm Hk s Hs. unfold bind. specialize (Hm s Hs).
  destruct (m s) as [[a|e] s'] eqn:E; simpl in *; auto.
  apply Hk; exact Hm.
Qed.

Lemma preserves_ret {S A} (P : S -> Prop) (a : A) : preserves P (ret a).
Proof. intros s Hs; exact Hs. Qed.
Lemma preserves_raise {S A} (P : S -> Prop) (e : exn) : preserves P (@raise S A e).
Proof. intros s Hs; exact Hs. Qed.
Lemma preserves_get {S} (P : S -> Prop) : preserves P get.
Proof. intros s Hs; exact Hs. Qed.
Lemma preserves_lift {S A} (P : S -> Prop) (r : result A) : preserves P (lift r).
Proof. intros s Hs; exact Hs. Qed.
Lemma preserves_modify {S} (P : S -> Prop) (f : S -> S) :
  (forall s, P s -> P (f s)) -> preserves P (modify f).
Proof. intros H s Hs; exact (H s Hs). Qed.

Lemma preserves_on_est_est {A} (Q : estimator -> Prop) (m : M estimator A) :
  preserves Q m -> preserves (fun w => Q w.(est)) (on_est m).
Proof.
  intros H w Hw. unfold on_est. specialize (H _ Hw).
  destruct (m (est w)) as [r e']; exact H.
Qed.

Lemma preserves_on_est_data {A} (d : list (string * pyval)) (m : M estimator A) :
  preserves (fun w => w.(input_data) = d) (on_est m).
Proof.
  intros w Hw. unfold on_est. destruct (m (est w)) as [r e']; exact Hw.
Qed.

Lemma preserves_log_call_data (d : list (string * pyval)) (c : ext_call) :
  preserves (fun w => w.(input_data) = d) (log_call c).
Proof. intros w Hw; exact Hw. Qed.

#[local] Hint Resolve preserves_ret preserves_raise preserves_get preserves_lift
  preserves_on_est_data preserves_log_call_data : preserves.

Ltac preserves_tac :=
  repeat match goal with
  | |- preserves _ (bind _ _) => apply preserves_bind; [ | intro ]
  | |- preserves _ (match ?x with _ => _ end) => destruct x
  | |- preserves _ (if ?b then _ else _) => destruct b
  end; auto with preserves.

(** ** Evaluation and persistence without a model *)

(** C7: with no model, [save] raises the [ValueError] "No model -- ..." and
    [evaluate_ratio] and [evaluate_performance] raise the same class of
    error, "No model -- ..."; the estimator, the files and the caller's data
    are left as they were, so nothing is written. *)
Theorem no_model_save_evaluate :
  forall (c : collaborators) (w : world) (filename : string) (save_model : bool) (x y : pyval),
    w.(est).(model) = None ->
    save filename save_model w = (Err (ValueError "No model -- train or load model before saving!"), w) /\
    evaluate_ratio c x w = (Err (ValueError "No model -- train or load model before evaluating it!"), w) /\
    evaluate_performance c x y w = (Err (ValueError "No model -- train or load model before evaluating it!"), w).
Proof.
  intros c w filename save_model x y Hm.
  unfold save, evaluate_ratio, evaluate_performance, bind, get, no_model_eval.
  rewrite Hm. repeat split; reflexivity.
Qed.

Lemma no_model_save_evaluate_witness :
  RatioEstimator_default.(model) = None /\
  save "model" false (mkWorld RatioEstimator_default [] [] []) =
    (Err (ValueError "No model -- train or load model before saving!"), mkWorld RatioEstimator_default [] [] []).
Proof.
  split; [reflexivity|].
  apply (no_model_save_evaluate accepting_collaborators (mkWorld RatioEstimator_default [] [] [])
           "model" false VNone VNone).
  reflexivity.
Defined.

(** C1 (code bug): [evaluate_ratio] never returns. With a model it raises
    once the input is loaded: [self.scaling_method] is an attribute no code
    of the repository sets (and [_transform_inputs] would refuse the
    [scaling] keyword as well). *)
Theorem evaluate_ratio_never_returns :
  forall (c : collaborators) (x : pyval) (w : world),
    is_err (fst (evaluate_ratio c x w)) = true.
Proof.
  intros c x w. unfold evaluate_ratio, bind, get, lift, raise.
  destruct (model (est w)) as [m|]; [|reflexivity].
  destruct (load_and_check (fs w) x); reflexivity.
Qed.

(** ** The scalers *)

(** C3 (code bug): with [transform=False] the observable scaler materialises
    zeros and ones of length [x.shape[0]], the number of rows of [x], not
    the number of its columns; the parameter scaler sets its stats to
    absent. *)
Theorem identity_scaling_uses_row_count :
  forall (nc : nat) (rows : list (list float)) (e : estimator)
         (tnc : nat) (trows : list (list float)) (c : cond_estimator),
    (initialize_input_transform nc rows false true e).(x_scaling_means) = Some (repeat 0%float (length rows)) /\
    (initialize_input_transform nc rows false true e).(x_scaling_stds) = Some (repeat 1%float (length rows)) /\
    (initialize_parameter_transform tnc trows false true c).(theta_scaling_means) = None /\
    (initialize_parameter_transform tnc trows false true c).(theta_scaling_stds) = None.
Proof.
  intros nc rows e tnc trows c.
  unfold initialize_input_transform, initialize_parameter_transform.
  rewrite !andb_false_r. repeat split; reflexivity.
Qed.

(** C4 (code bug): the guard of [initialize_parameter_transform] inspects the
    observable stats, not the parameter stats: with no observable scaling,
    [overwrite=False] recomputes the parameter stats from [theta] whatever
    parameter stats are already present. *)
Theorem parameter_transform_guard_ignores_theta :
  forall (nc : nat) (rows : list (list float)) (c : cond_estimator),
    c.(base).(x_scaling_means) = None ->
    initialize_parameter_transform nc rows true false c =
      mkCondEstimator c.(base) (Some (np_mean0 nc rows))
        (Some (map (fun s => np_maximum s std_floor) (np_std0 nc rows))).
Proof.
  intros nc rows c H. unfold initialize_parameter_transform. rewrite H.
  rewrite andb_false_r. reflexivity.
Qed.

Lemma parameter_transform_guard_ignores_theta_witness :
  (mkCondEstimator RatioEstimator_default (Some [5%float]) (Some [1%float])).(base).(x_scaling_means) = None /\
  (initialize_parameter_transform 1 [[0]; [2]]%float true false
     (mkCondEstimator RatioEstimator_default (Some [5%float]) (Some [1%float]))).(theta_scaling_means)
  = Some [1%float].
Proof.
  split; [reflexivity|].
  rewrite (parameter_transform_guard_ignores_theta 1 [[0]; [2]]%float
             (mkCondEstimator RatioEstimator_default (Some [5%float]) (Some [1%float])) eq_refl).
  vm_compute. reflexivity.
Defined.

(** ** The settings codec *)

Lemma Estimator_unwrap_settings_missing_tag :
  forall settings e, lookup "estimator_type" settings = None ->
    Estimator_unwrap_settings settings e = (Err (RuntimeError missing_type_msg), e).
Proof.
  intros settings e H. unfold Estimator_unwrap_settings. rewrite H. reflexivity.
Qed.

Lemma RatioEstimator_unwrap_settings_foreign_tag :
  forall settings e t,
    lookup "estimator_type" settings = Some t ->
    py_str t <> "double_parameterized_ratio" ->
    RatioEstimator_unwrap_settings settings e =
      match Estimator_unwrap_settings settings e with
      | (Ok _, e') => (Err (RuntimeError ("Saved model is an incompatible estimator type " ++ py_str t ++ ".")), e')
      | (Err err, e') => (Err err, e')
      end.
Proof.
  intros settings e t Ht Hne. unfold RatioEstimator_unwrap_settings, bind at 1.
  destruct (Estimator_unwrap_settings settings e) as [[u|err] e'] eqn:E; [|reflexivity].
  unfold bind, lift, getitem. rewrite Ht.
  apply String.eqb_neq in Hne. rewrite Hne. reflexivity.
Qed.

(** C2 (corrected): a record without [estimator_type] is refused before any
    attribute is assigned, so the estimator is unchanged. A record whose tag
    differs is always refused, but only after the base decoding has run: the
    estimator is left in the state the base decoding reached, with the
    record's values in the attributes it converted. *)
Theorem unwrap_settings_type_tag_state :
  forall (settings : list (string * json)) (e : estimator),
    (lookup "estimator_type" settings = None ->
       RatioEstimator_unwrap_settings settings e = (Err (RuntimeError missing_type_msg), e)) /\
    (forall t, lookup "estimator_type" settings = Some t ->
       py_str t <> "double_parameterized_ratio" ->
       is_err (fst (RatioEstimator_unwrap_settings settings e)) = true /\
       snd (RatioEstimator_unwrap_settings settings e) = snd (Estimator_unwrap_settings settings e)).
Proof.
  intros settings e. split.
  - intros H. unfold RatioEstimator_unwrap_settings, bind at 1.
    rewrite (Estimator_unwrap_settings_missing_tag settings e H). reflexivity.
  - intros t Ht Hne. rewrite (RatioEstimator_unwrap_settings_foreign_tag settings e t Ht Hne).
    destruct (Estimator_unwrap_settings settings e) as [[u|err] e']; split; reflexivity.
Qed.

Lemma unwrap_settings_type_tag_state_witness :
  lookup "estimator_type" foreign_settings = Some (JStr "score") /\
  py_str (JStr "score") <> "double_parameterized_ratio" /\
  snd (RatioEstimator_unwrap_settings foreign_settings RatioEstimator_default) =
    snd (Estimator_unwrap_settings foreign_settings RatioEstimator_default).
Proof.
  assert (Hne : py_str (JStr "score") <> "double_parameterized_ratio") by discriminate.
  split; [reflexivity|]. split; [exact Hne|].
  apply (proj2 (unwrap_settings_type_tag_state foreign_settings RatioEstimator_default)
           (JStr "score") eq_refl Hne).
Defined.

(** C2 counterexample: decoding a complete record of another estimator type
    into a fresh estimator raises, yet [n_observables] has been set from the
    record. *)
Lemma unwrap_foreign_settings_mutates :
  is_err (fst (RatioEstimator_unwrap_settings foreign_settings RatioEstimator_default)) = true /\
  (snd (RatioEstimator_unwrap_settings foreign_settings RatioEstimator_default)).(n_observables) = Some 3%Z /\
  RatioEstimator_default.(n_observables) = None.
Proof. vm_compute. repeat split. Qed.

(** C8 (corrected): without [estimator_type] decoding fails with the
    compatibility [RuntimeError]; with a different tag it never succeeds,
    failing with the [RuntimeError] that names the tag when the other fields
    decode, and otherwise with the error of the first field that does not. *)
Theorem unwrap_settings_type_tag_errors :
  forall (settings : list (string * json)) (e : estimator),
    (lookup "estimator_type" settings = None ->
       fst (RatioEstimator_unwrap_settings settings e) = Err (RuntimeError missing_type_msg)) /\
    (forall t, lookup "estimator_type" settings = Some t ->
       py_str t <> "double_parameterized_ratio" ->
       fst (RatioEstimator_unwrap_settings settings e) =
         match fst (Estimator_unwrap_settings settings e) with
         | Ok _ => Err (RuntimeError ("Saved model is an incompatible estimator type " ++ py_str t ++ "."))
         | Err err => Err err
         end).
Proof.
  intros settings e. split.
  - intros H. unfold RatioEstimator_unwrap_settings, bind at 1.
    rewrite (Estimator_unwrap_settings_missing_tag settings e H). reflexivity.
  - intros t Ht Hne. rewrite (RatioEstimator_unwrap_settings_foreign_tag settings e t Ht Hne).
    destruct (Estimator_unwrap_settings settings e) as [[u|err] e']; reflexivity.
Qed.

Lemma unwrap_settings_type_tag_errors_witness :
  fst (RatioEstimator_unwrap_settings foreign_settings RatioEstimator_default) =
    Err (RuntimeError "Saved model is an incompatible estimator type score.") /\
  fst (RatioEstimator_unwrap_settings [] RatioEstimator_default) = Err (RuntimeError missing_type_msg).
Proof.
  assert (Hne : py_str (JStr "score") <> "double_parameterized_ratio") by discriminate.
  split.
  - rewrite (proj2 (unwrap_settings_type_tag_errors foreign_settings RatioEstimator_default)
               (JStr "score") eq_refl Hne).
    vm_compute. reflexivity.
  - apply (proj1 (unwrap_settings_type_tag_errors [] RatioEstimator_default)). reflexivity.
Defined.

(** C8 counterexample: a record of another type with [n_parameters] null (as
    [save] writes it) fails with a [TypeError] from [int(None)], which does
    not name the type. *)
Lemma unwrap_foreign_null_settings_type_error :
  fst (RatioEstimator_unwrap_settings foreign_settings_null RatioEstimator_default) =
    Err (TypeError int_None_msg).
Proof. vm_compute. reflexivity. Qed.

(** ** Frame lemmas for [train] *)

Section EstimatorFrame.

(** A property of the estimator kept by every assignment [train] makes. *)
Variable Q : estimator -> Prop.
Hypothesis Q_input_transform :
  forall nc rows t o e, Q e -> Q (initialize_input_transform nc rows t o e).
Hypothesis Q_observables :
  forall n e, Q e -> Q (match e.(n_observables) with
                       | None => set_n_observables (Some n) e
                       | Some _ => e
                       end).
Hypothesis Q_model : forall m e, Q e -> Q (set_model m e).

Ltac est_frame :=
  repeat match goal with
  | |- preserves _ (bind _ _) => apply preserves_bind; [ | intro ]
  | |- preserves _ (match ?x with _ => _ end) => destruct x
  | |- preserves _ (if ?b then _ else _) => destruct b
  | |- preserves _ (on_est _) => apply preserves_on_est_est
  | |- preserves _ (modify _) => apply preserves_modify; intros ? ?
  | |- preserves _ (set_input_data _) => apply preserves_modify; intros ? ?
  | |- preserves _ (log_call _) => apply preserves_modify; intros ? ?
  end; simpl; auto with preserves.

Lemma load_inputs_est (keys : list string) :
  preserves (fun w => Q w.(est)) (load_inputs keys).
Proof. induction keys as [|k ks IH]; simpl; est_frame. Qed.

Lemma train_body_est (c : collaborators) (a : train_args) :
  preserves (fun w => Q w.(est)) (train_body c a).
Proof.
  unfold train_body, scale_features, check_observables, create_model_if_missing,
    _create_model, losses, fit.
  est_frame.
Qed.

Lemma train_est (c : collaborators) (a : train_args) :
  preserves (fun w => Q w.(est)) (train c a).
Proof.
  unfold train, check_required. apply preserves_bind; [est_frame|intros _].
  apply preserves_bind; [apply load_inputs_est|intros _]. apply train_body_est.
Qed.

Lemma scale_features_est (a : train_args) (meta x0 x1 : pyval) (xa : ndarray)
    (x_val : option ndarray) :
  preserves (fun w => Q w.(est)) (scale_features a meta x0 x1 xa x_val).
Proof. unfold scale_features. est_frame. Qed.

End EstimatorFrame.

Lemma train_keeps_n_parameters (c : collaborators) (a : train_args) (p : option Z) :
  preserves (fun w => w.(est).(n_parameters) = p) (train c a).
Proof.
  apply (train_est (fun e => e.(n_parameters) = p)).
  - intros nc rows t o e H. unfold initialize_input_transform.
    destruct (_ && _)%bool; [exact H|]. destruct t; exact H.
  - intros n e H. destruct (n_observables e); exact H.
  - intros m e H. exact H.
Qed.

Lemma train_keeps_set_n_observables (c : collaborators) (a : train_args) (n : Z) :
  preserves (fun w => w.(est).(n_observables) = Some n) (train c a).
Proof.
  apply (train_est (fun e => e.(n_observables) = Some n)).
  - intros nc rows t o e H. unfold initialize_input_transform.
    destruct (_ && _)%bool; [exact H|]. destruct t; exact H.
  - intros k e H. rewrite H. exact H.
  - intros m e H. exact H.
Qed.

(** ** Dictionaries and file names *)

Lemma lookup_setitem_eq {V} (d : list (string * V)) (k : string) (v : V) :
  lookup k (setitem d k v) = Some v.
Proof.
  induction d as [|[k' v'] d IH]; simpl.
  - rewrite String.eqb_refl. reflexivity.
  - destruct (String.eqb k k') eqn:E; simpl.
    + rewrite String.eqb_refl. reflexivity.
    + rewrite E. exact IH.
Qed.

Lemma lookup_setitem_neq {V} (d : list (string * V)) (k k' : string) (v : V) :
  k <> k' -> lookup k (setitem d k' v) = lookup k d.
Proof.
  intros Hne. apply String.eqb_neq in Hne.
  induction d as [|[k'' v''] d IH]; simpl.
  - rewrite Hne. reflexivity.
  - destruct (String.eqb k' k'') eqn:E; simpl.
    + apply String.eqb_eq in E. subst k''. rewrite Hne. reflexivity.
    + rewrite IH. reflexivity.
Qed.

Lemma append_neq_l (s a b : string) : a <> b -> (s ++ a)%string <> (s ++ b)%string.
Proof.
  intros Hab. induction s as [|ch s IH]; simpl; [exact Hab|].
  intros H. injection H as H. exact (IH H).
Qed.

(** ** Persistence *)

Lemma save_writes_settings (prefix : string) (save_model : bool) (w : world) (m : ratio_model) :
  w.(est).(model) = Some m ->
  lookup (prefix ++ "_settings.json") (snd (save prefix save_model w)).(fs) =
    Some (FJson (JObj (RatioEstimator_wrap_settings w.(est)))).
Proof.
  intros Hm. unfold save, bind, get, write_file, modify, ret. rewrite Hm. simpl.
  assert (H1 : (prefix ++ "_settings.json")%string <> (prefix ++ "_x_means.npy")%string)
    by (apply append_neq_l; discriminate).
  assert (H2 : (prefix ++ "_settings.json")%string <> (prefix ++ "_x_stds.npy")%string)
    by (apply append_neq_l; discriminate).
  assert (H3 : (prefix ++ "_settings.json")%string <> (prefix ++ "_state_dict.pt")%string)
    by (apply append_neq_l; discriminate).
  assert (H4 : (prefix ++ "_settings.json")%string <> (prefix ++ "_model.pt")%string)
    by (apply append_neq_l; discriminate).
  destruct (x_scaling_stds (est w)), (x_scaling_means (est w)), save_model; simpl;
    repeat rewrite lookup_setitem_neq by assumption; apply lookup_setitem_eq.
Qed.

(** What [save] writes for an estimator without [n_parameters] does not decode:
    [int(None)] raises at [n_parameters] (or already at [n_observables]). *)
Lemma unwrap_saved_settings_null (e e0 : estimator) :
  e.(n_parameters) = None ->
  fst (RatioEstimator_unwrap_settings (RatioEstimator_wrap_settings e) e0) = Err (TypeError int_None_msg).
Proof.
  intros Hp. unfold RatioEstimator_unwrap_settings, Estimator_unwrap_settings,
    RatioEstimator_wrap_settings, Estimator_wrap_settings.
  rewrite Hp. destruct (n_observables e); reflexivity.
Qed.

Lemma load_saved_null (prefix : string) (save_model : bool) (w : world) (m : ratio_model) :
  w.(est).(model) = Some m -> w.(est).(n_parameters) = None ->
  fst (load prefix (mkWorld RatioEstimator_default (snd (save prefix save_model w)).(fs)
                      (snd (save prefix save_model w)).(input_data) (snd (save prefix save_model w)).(calls)))
  = Err (TypeError int_None_msg).
Proof.
  intros Hm Hp. pose proof (save_writes_settings prefix save_model w m Hm) as Hf.
  remember (snd (save prefix save_model w)) as w' eqn:Ew. clear Ew.
  unfold load, read_file, bind, get, ret, lift, on_est. simpl. rewrite Hf. simpl.
  pose proof (unwrap_saved_settings_null (est w) RatioEstimator_default Hp) as H.
  destruct (RatioEstimator_unwrap_settings (RatioEstimator_wrap_settings (est w)) RatioEstimator_default)
    as [r e'] eqn:E.
  simpl in H. subst r. reflexivity.
Qed.

(** C9 (code bug): [RatioEstimator] never assigns [n_parameters], so an
    estimator configured by [train] (from an estimator without
    [n_parameters], such as a fresh one) still has it unset; [save] writes it
    as null, and [load] into a fresh [RatioEstimator] raises [TypeError] at
    [int(None)] instead of reproducing the configuration. *)
Theorem save_load_round_trip_fails_after_train :
  forall (c : collaborators) (a : train_args) (w0 : world) (prefix : string)
         (save_model : bool) (m : ratio_model),
    w0.(est).(n_parameters) = None ->
    (snd (train c a w0)).(est).(model) = Some m ->
    fst (load prefix (mkWorld RatioEstimator_default
                        (snd (save prefix save_model (snd (train c a w0)))).(fs)
                        (snd (save prefix save_model (snd (train c a w0)))).(input_data)
                        (snd (save prefix save_model (snd (train c a w0)))).(calls)))
    = Err (TypeError int_None_msg).
Proof.
  intros c a w0 prefix save_model m Hp Hm.
  apply (load_saved_null prefix save_model (snd (train c a w0)) m Hm).
  apply (train_keeps_n_parameters c a None w0 Hp).
Qed.

Lemma save_load_round_trip_fails_after_train_witness :
  RatioEstimator_default.(n_parameters) = None /\
  is_some trained_world.(est).(model) = true /\
  fst (load "model" (mkWorld RatioEstimator_default
                       (snd (save "model" false trained_world)).(fs)
                       (snd (save "model" false trained_world)).(input_data)
                       (snd (save "model" false trained_world)).(calls)))
  = Err (TypeError int_None_msg).
Proof.
  split; [reflexivity|]. split; [vm_compute; reflexivity|].
  unfold trained_world.
  eapply (save_load_round_trip_fails_after_train accepting_collaborators (carl_args true)
            example_world "model" false).
  - reflexivity.
  - vm_compute. reflexivity.
Defined.

(** ** Running [train] step by step *)

Lemma bind_ok_inv {S A B} (m : M S A) (k : A -> M S B) (s s' : S) (r : B) :
  bind m k s = (Ok r, s') -> exists a s1, m s = (Ok a, s1) /\ k a s1 = (Ok r, s').
Proof.
  unfold bind. destruct (m s) as [[a|e] s1]; intros H; [|discriminate].
  exists a, s1. split; [reflexivity|exact H].
Qed.

Lemma check_required_state (w : world) : snd (check_required w) = w.
Proof.
  unfold check_required, bind, get. destruct (forallb _ _); reflexivity.
Qed.

Lemma load_inputs_frame (keys : list string) (f : list (string * file)) (cs : list ext_call) :
  preserves (fun w => w.(fs) = f /\ w.(calls) = cs) (load_inputs keys).
Proof.
  induction keys as [|k ks IH]; simpl; [apply preserves_ret|].
  apply preserves_bind; [apply preserves_get|intros w0].
  apply preserves_bind; [|intros _; exact IH].
  destruct (lookup k (input_data w0)); [|apply preserves_ret].
  apply preserves_bind; [apply preserves_lift|intros v].
  apply preserves_modify. intros w1 H. exact H.
Qed.

Lemma load_inputs_other (keys : list string) (k : string) (o : option pyval) :
  ~ In k keys -> preserves (fun w => lookup k w.(input_data) = o) (load_inputs keys).
Proof.
  induction keys as [|k' ks IH]; simpl; intros Hk; [apply preserves_ret|].
  assert (IH' : preserves (fun w => lookup k w.(input_data) = o) (load_inputs ks)) by (apply IH; tauto).
  intros w0 H0. unfold bind at 1, get.
  unfold bind at 1. destruct (lookup k' (input_data w0)) as [v|].
  - unfold bind, lift. destruct (load_and_check (fs w0) v) as [v'|err]; simpl; [|exact H0].
    apply IH'. simpl. rewrite lookup_setitem_neq by (intros ->; tauto). exact H0.
  - apply IH'. exact H0.
Qed.

Lemma load_inputs_cons (k : string) (ks : list string) (w : world) :
  load_inputs (k :: ks) w =
    match lookup k w.(input_data) with
    | Some v =>
        match load_and_check w.(fs) v with
        | Ok v' => load_inputs ks (mkWorld w.(est) w.(fs) (setitem w.(input_data) k v') w.(calls))
        | Err err => (Err err, w)
        end
    | None => load_inputs ks w
    end.
Proof.
  simpl. unfold bind, get, lift, set_input_data, modify, ret.
  destruct (lookup k (input_data w)); [|reflexivity].
  destruct (load_and_check (fs w) p); reflexivity.
Qed.

Lemma load_inputs_loads (keys : list string) (w : world) :
  NoDup keys -> loads_all w.(fs) w.(input_data) keys = true ->
  fst (load_inputs keys w) = Ok tt /\
  forall k v, In k keys -> lookup k w.(input_data) = Some v ->
    exists v', load_and_check w.(fs) v = Ok v' /\
               lookup k (snd (load_inputs keys w)).(input_data) = Some v'.
Proof.
  revert w. induction keys as [|k ks IH]; intros w Hnd Hall.
  - split; [reflexivity|]. intros k v [].
  - inversion Hnd as [|? ? Hk Hnd']; subst.
    unfold loads_all in Hall. simpl in Hall. apply andb_prop in Hall as [Hhd Htl].
    rewrite load_inputs_cons.
    destruct (lookup k (input_data w)) as [v0|] eqn:Ek.
    + destruct (load_and_check (fs w) v0) as [v0'|err] eqn:El; [|discriminate].
      set (w1 := mkWorld (est w) (fs w) (setitem (input_data w) k v0') (calls w)).
      assert (Hall1 : loads_all (fs w1) (input_data w1) ks = true).
      { unfold loads_all. apply forallb_forall. intros k' Hin.
        simpl. rewrite lookup_setitem_neq by (intros ->; contradiction).
        apply (proj1 (forallb_forall _ ks) Htl k' Hin). }
      destruct (IH w1 Hnd' Hall1) as [Hok Hks]. split; [exact Hok|].
      intros k' v [<-|Hin] Hl.
      * rewrite Ek in Hl. injection Hl as <-. exists v0'. split; [exact El|].
        apply (load_inputs_other ks k (Some v0') Hk w1). apply lookup_setitem_eq.
      * assert (Hne : k' <> k) by (intros ->; contradiction).
        apply (Hks k' v Hin). simpl. rewrite lookup_setitem_neq by exact Hne. exact Hl.
    + destruct (IH w Hnd' Htl) as [Hok Hks]. split; [exact Hok|].
      intros k' v [<-|Hin] Hl; [congruence|]. exact (Hks k' v Hin Hl).
Qed.

Lemma input_keys_NoDup : NoDup (required_list ++ optional_list).
Proof.
  unfold required_list, optional_list. simpl.
  repeat constructor; simpl; intros H; repeat destruct H as [H|H]; try discriminate; contradiction.
Qed.

Lemma train_body_data (c : collaborators) (a : train_args) (d : list (string * pyval)) :
  preserves (fun w => w.(input_data) = d) (train_body c a).
Proof.
  unfold train_body, scale_features, check_observables, create_model_if_missing, losses, fit.
  preserves_tac.
Qed.

Lemma train_after_check (c : collaborators) (a : train_args) (w : world) :
  forallb (fun k => has_key k w.(input_data)) required_list = true ->
  train c a w =
    match load_inputs (required_list ++ optional_list) w with
    | (Ok _, w1) => train_body c a w1
    | (Err err, w1) => (Err err, w1)
    end.
Proof.
  intros H. unfold train, check_required, bind, get, ret. cbv beta. rewrite H.
  destruct (load_inputs (required_list ++ optional_list) w) as [[]]; reflexivity.
Qed.

Lemma load_and_check_path (fsys : list (string * file)) (p : string) (v' : pyval) :
  load_and_check fsys (VPath p) = Ok v' -> v' <> VPath p.
Proof.
  simpl. destruct (lookup p fsys) as [[]|]; try discriminate.
  intros H. injection H as <-. discriminate.
Qed.

(** C10: [train] assigns into the caller's dictionary: once the required keys
    are there and the loader accepts every value given, each of the seven
    keys that is present holds afterwards the loader's result for its
    original value (a path is replaced by the array read from it), whether
    [train] then returns or raises. *)
Theorem train_replaces_inputs :
  forall (c : collaborators) (a : train_args) (w : world),
    forallb (fun k => has_key k w.(input_data)) required_list = true ->
    loads_all w.(fs) w.(input_data) (required_list ++ optional_list) = true ->
    forall k v, In k (required_list ++ optional_list) -> lookup k w.(input_data) = Some v ->
      exists v', load_and_check w.(fs) v = Ok v' /\
                 lookup k (snd (train c a w)).(input_data) = Some v' /\
                 (forall p, v = VPath p -> v' <> v).
Proof.
  intros c a w Hreq Hall k v Hin Hl.
  destruct (load_inputs_loads _ w input_keys_NoDup Hall) as [Hok Hks].
  destruct (Hks k v Hin Hl) as (v' & Hv' & Hl').
  exists v'. split; [exact Hv'|]. split.
  - rewrite (train_after_check c a w Hreq).
    destruct (load_inputs (required_list ++ optional_list) w) as [r w1] eqn:E.
    simpl in Hok. subst r. simpl in Hl'.
    rewrite (train_body_data c a (input_data w1) w1 eq_refl). exact Hl'.
  - intros p ->. exact (load_and_check_path (fs w) p v' Hv').
Qed.

Lemma train_replaces_inputs_witness :
  forallb (fun k => has_key k example_world.(input_data)) required_list = true /\
  loads_all example_world.(fs) example_world.(input_data) (required_list ++ optional_list) = true /\
  exists v', lookup "X1_train" (snd (train accepting_collaborators (carl_args true) example_world)).(input_data) = Some v' /\
             v' <> VPath "x1.npy".
Proof.
  assert (H1 : forallb (fun k => has_key k example_world.(input_data)) required_list = true) by reflexivity.
  assert (H2 : loads_all example_world.(fs) example_world.(input_data) (required_list ++ optional_list) = true)
    by reflexivity.
  split; [exact H1|]. split; [exact H2|].
  destruct (train_replaces_inputs accepting_collaborators (carl_args true) example_world H1 H2
              "X1_train" (VPath "x1.npy") (or_intror (or_intror (or_intror (or_intror (or_intror (or_introl eq_refl))))))
              eq_refl) as (v' & _ & Hl & Hne).
  exists v'. split; [exact Hl|]. exact (Hne "x1.npy" eq_refl).
Defined.

(** ** The loss weight *)

Lemma preserves_bind_get {S B} (P : S -> Prop) (k : S -> M S B) :
  (forall s0, P s0 -> preserves P (k s0)) -> preserves P (bind get k).
Proof. intros H s Hs. unfold bind, get. exact (H s Hs s Hs). Qed.

Lemma preserves_on_est_world {A} (P : world -> Prop) (m : M estimator A) :
  (forall w e, P w -> P (mkWorld e w.(fs) w.(input_data) w.(calls))) -> preserves P (on_est m).
Proof.
  intros H w Hw. unfold on_est. destruct (m (est w)) as [r e']. apply H. exact Hw.
Qed.

Lemma losses_weighted (c : collaborators) (a : train_args) (d : list (string * pyval)) (wv x0 x1 : pyval) :
  preserves (fun w => w.(input_data) = d /\ calls_weighted wv x0 x1 w.(calls)) (losses c a wv x0 x1).
Proof.
  intros s [Hd Hs]. unfold losses, bind, lift, log_call, modify.
  destruct (loss_weight wv x0 x1) as [wf|err] eqn:E; simpl; [|split; assumption].
  split; [exact Hd|]. intros m al wf' lt Hin. apply in_app_or in Hin as [Hin|[Hc|[]]].
  - exact (Hs m al wf' lt Hin).
  - injection Hc as _ _ <- _. exact E.
Qed.

Lemma train_body_weighted (c : collaborators) (a : train_args) (d : list (string * pyval)) :
  preserves (fun w => w.(input_data) = d /\
                      calls_weighted (dict_get d "w_train") (dict_get d "X0_train") (dict_get d "X1_train") w.(calls))
    (train_body c a).
Proof.
  unfold train_body. apply preserves_bind_get. intros s0 [Hd _]. subst d.
  unfold scale_features, check_observables, create_model_if_missing, fit.
  repeat match goal with
  | |- preserves _ (bind _ _) => apply preserves_bind; [ | intro ]
  | |- preserves _ (match ?x with _ => _ end) => destruct x
  | |- preserves _ (if ?b then _ else _) => destruct b
  | |- preserves _ (on_est _) => apply preserves_on_est_world; intros ? ? ?; assumption
  | |- preserves _ (losses _ _ _ _ _) => apply losses_weighted
  end; auto with preserves.
Qed.

Lemma train_check_fails (c : collaborators) (a : train_args) (w : world) :
  forallb (fun k => has_key k w.(input_data)) required_list = false ->
  snd (train c a w) = w.
Proof.
  intros H. unfold train, check_required, bind, get, raise. cbv beta. rewrite H. reflexivity.
Qed.

(** C5 (corrected): when [w_train] is [None], the weight handed to the loss
    factory is [len(x0) / len(x1)], the numerator count over the denominator
    count, computed from the loaded [X0_train] and [X1_train]. *)
Theorem train_loss_weight :
  forall (c : collaborators) (a : train_args) (w : world) (m : string) (al : float)
         (wf : pyval) (lt : string),
    w.(calls) = [] ->
    In (CallGetLoss m al wf lt) (snd (train c a w)).(calls) ->
    dict_get (snd (train c a w)).(input_data) "w_train" = VNone ->
    exists n0 n1,
      py_len (dict_get (snd (train c a w)).(input_data) "X0_train") = Ok n0 /\
      py_len (dict_get (snd (train c a w)).(input_data) "X1_train") = Ok n1 /\
      n1 <> 0 /\
      wf = VFloat (float_of_nat n0 / float_of_nat n1)%float.
Proof.
  intros c a w m al wf lt Hc Hin Hw.
  destruct (forallb (fun k => has_key k w.(input_data)) required_list) eqn:Hreq.
  2:{ rewrite (train_check_fails c a w Hreq), Hc in Hin. destruct Hin. }
  revert Hin Hw. rewrite (train_after_check c a w Hreq).
  destruct (load_inputs (required_list ++ optional_list) w) as [[u|err] w1] eqn:E.
  all: pose proof (load_inputs_frame (required_list ++ optional_list) w.(fs) w.(calls) w (conj eq_refl eq_refl))
         as [_ Hc1]; rewrite E in Hc1; simpl in Hc1.
  2:{ simpl. rewrite Hc1, Hc. intros []. }
  intros Hin Hw.
  assert (Hinit : w1.(input_data) = w1.(input_data) /\
                  calls_weighted (dict_get w1.(input_data) "w_train") (dict_get w1.(input_data) "X0_train")
                    (dict_get w1.(input_data) "X1_train") w1.(calls)).
  { split; [reflexivity|]. rewrite Hc1, Hc. intros ? ? ? ? []. }
  destruct (train_body_weighted c a w1.(input_data) w1 Hinit) as [Hd Hwt].
  rewrite Hd in Hw |- *. specialize (Hwt m al wf lt Hin).
  rewrite Hw in Hwt. unfold loss_weight, rbind in Hwt.
  destruct (py_len (dict_get (input_data w1) "X0_train")) as [n0|e0]; [|discriminate].
  destruct (py_len (dict_get (input_data w1) "X1_train")) as [n1|e1]; [|discriminate].
  destruct (Nat.eqb n1 0) eqn:Hn1; [discriminate|].
  injection Hwt as <-. exists n0, n1. repeat split.
  apply Nat.eqb_neq. exact Hn1.
Qed.

Lemma train_loss_weight_witness :
  example_world.(calls) = [] /\
  In (CallGetLoss "carl" 1.0 (VFloat 0.5) "regular")
     (snd (train accepting_collaborators (carl_args true) example_world)).(calls) /\
  dict_get (snd (train accepting_collaborators (carl_args true) example_world)).(input_data) "w_train" = VNone /\
  exists n0 n1,
    py_len (dict_get (snd (train accepting_collaborators (carl_args true) example_world)).(input_data) "X0_train") = Ok n0 /\
    py_len (dict_get (snd (train accepting_collaborators (carl_args true) example_world)).(input_data) "X1_train") = Ok n1 /\
    n1 <> 0 /\
    VFloat 0.5 = VFloat (float_of_nat n0 / float_of_nat n1)%float.
Proof.
  assert (H1 : example_world.(calls) = []) by reflexivity.
  assert (H2 : In (CallGetLoss "carl" 1.0 (VFloat 0.5) "regular")
                 (snd (train accepting_collaborators (carl_args true) example_world)).(calls))
    by (vm_compute; left; reflexivity).
  assert (H3 : dict_get (snd (train accepting_collaborators (carl_args true) example_world)).(input_data) "w_train" = VNone)
    by (vm_compute; reflexivity).
  split; [exact H1|]. split; [exact H2|]. split; [exact H3|].
  exact (train_loss_weight accepting_collaborators (carl_args true) example_world
           "carl" 1.0 (VFloat 0.5) "regular" H1 H2 H3).
Defined.

(** C5 counterexample: one numerator sample (label 0) and two denominator
    samples (label 1); the loss factory gets [0.5], not the denominator over
    numerator count [2.0]. *)
Lemma loss_weight_numerator_over_denominator :
  (snd (train accepting_collaborators (carl_args true) example_world)).(calls) =
    [CallGetLoss "carl" 1.0 (VFloat 0.5) "regular"] /\
  py_len (dict_get (snd (train accepting_collaborators (carl_args true) example_world)).(input_data) "X0_train") = Ok 1 /\
  py_len (dict_get (snd (train accepting_collaborators (carl_args true) example_world)).(input_data) "X1_train") = Ok 2 /\
  VFloat 0.5 <> VFloat (float_of_nat 2 / float_of_nat 1)%float.
Proof.
  split; [vm_compute; reflexivity|]. split; [vm_compute; reflexivity|]. split; [vm_compute; reflexivity|].
  intros H. apply (f_equal (fun v => match v with VFloat f => PrimFloat.eqb f 0.5 | _ => false end)) in H.
  vm_compute in H. discriminate.
Qed.

(** ** The observable count *)

Ltac peel H :=
  apply bind_ok_inv in H;
  let a := fresh "a" in let s := fresh "s" in let H1 := fresh "Hstep" in
  destruct H as (a & s & H1 & H); cbv beta in H.

Lemma train_ok_inv (c : collaborators) (a : train_args) (w w' : world) (r : list float) :
  train c a w = (Ok r, w') ->
  exists w1, load_inputs (required_list ++ optional_list) w = (Ok tt, w1) /\ train_body c a w1 = (Ok r, w').
Proof.
  unfold train. intros H. peel H.
  pose proof (check_required_state w) as Hs. rewrite Hstep in Hs. simpl in Hs. subst s.
  peel H. match goal with
  | Hl : load_inputs _ _ = (Ok ?u, ?w1) |- _ => destruct u; exists w1; split; assumption
  end.
Qed.

Lemma rmap_length {A B} (f : A -> result B) (l : list A) (l' : list B) :
  rmap f l = Ok l' -> length l' = length l.
Proof.
  revert l'. induction l as [|x l IH]; simpl; intros l' H.
  - injection H as <-. reflexivity.
  - unfold rbind in H. destruct (f x) as [y|e]; [|discriminate].
    destruct (rmap f l) as [ys|e]; [|discriminate].
    injection H as <-. simpl. f_equal. apply IH. reflexivity.
Qed.

Lemma infer_dims_ok (x xv yv : pyval) (xa : ndarray) (n_obs : nat) (x_val : option ndarray) :
  infer_dims x xv yv = Ok (xa, n_obs, x_val) -> exists rows, x = VArr (Mat n_obs rows).
Proof.
  unfold infer_dims, rbind. intros H.
  destruct x as [|[v|nc rows]| | |]; simpl in H; try discriminate.
  destruct (external_validation xv yv).
  - destruct (as_array xv) as [[v|ncv rowsv]|]; simpl in H; try discriminate.
    destruct (Nat.eqb ncv nc); [|discriminate].
    injection H as Hxa Hn _. subst. exists rows. reflexivity.
  - injection H as Hxa Hn _. subst. exists rows. reflexivity.
Qed.

Lemma restrict_train_features_ok (f : json) (xa : ndarray) (n_obs : nat) (x_val : option ndarray)
    (xa' : ndarray) (n' : nat) (x_val' : option ndarray) :
  restrict_train_features f xa n_obs x_val = Ok (xa', n', x_val') ->
  effective_count f n_obs = Some n'.
Proof.
  intros H. unfold restrict_train_features in H.
  destruct (json_is_None f) eqn:Hf.
  - destruct f; try discriminate Hf. injection H as _ Hn _. subst. reflexivity.
  - unfold rbind in H.
    destruct (select_features xa f) as [xa1|e] eqn:Es; [|discriminate].
    destruct (shape1 xa1) as [n1|e] eqn:Eh; [|discriminate].
    match type of H with
    | context [match ?m with Ok _ => _ | Err _ => _ end] => destruct m
    end; [|discriminate].
    injection H as _ Hn _. subst n'.
    destruct xa as [v|nc rows], f; unfold select_features in Es; cbv beta iota in Es;
      try discriminate Es; try discriminate Hf.
    + unfold rbind in Es. destruct (col_index nc (JInt z)); [|discriminate Es].
      injection Es as <-. simpl in Eh. discriminate Eh.
    + unfold rbind in Es. destruct (rmap (col_index nc) l) as [idx|e] eqn:Er; [|discriminate].
      injection Es as <-. simpl in Eh. injection Eh as <-. simpl. f_equal.
      symmetry; exact (rmap_length _ _ _ Er).
Qed.

Lemma check_observables_ok (n_obs : nat) (n : Z) (s s' : world) :
  s.(est).(n_observables) = Some n ->
  check_observables n_obs s = (Ok tt, s') -> Z.of_nat n_obs = n.
Proof.
  intros Hn H. unfold check_observables, bind, on_est, modify, get in H. simpl in H.
  rewrite Hn in H. simpl in H. rewrite Hn in H. unfold ret, raise in H.
  destruct (Z.eqb (Z.of_nat n_obs) n) eqn:E.
  - apply Z.eqb_eq. exact E.
  - discriminate H.
Qed.

(** The stored observable count and feature selection, kept by every
    assignment [train] makes once the count is set. *)
Lemma lock_kept (f : json) (n : Z) :
  let Q := fun e => e.(features) = f /\ e.(n_observables) = Some n in
  (forall nc rows t o e, Q e -> Q (initialize_input_transform nc rows t o e)) /\
  (forall k e, Q e -> Q (match e.(n_observables) with
                         | None => set_n_observables (Some k) e
                         | Some _ => e
                         end)) /\
  (forall m e, Q e -> Q (set_model m e)).
Proof.
  simpl. split; [|split].
  - intros nc rows t o e H. unfold initialize_input_transform.
    destruct (_ && _)%bool; [exact H|]. destruct t; exact H.
  - intros k e [Hf Hn]. rewrite Hn. split; assumption.
  - intros m e H. exact H.
Qed.

(** C6 (corrected): once [n_observables] is set, [train] never changes it,
    and a call that returns had an observable count after feature
    restriction equal to it: the loaded [X_train] is a 2-d array of [nc]
    columns and the count is [nc], or the length of the feature list. So a
    call with a different count fails, though not always with the
    [RuntimeError]: an earlier step (the rescaling with the stored stats,
    the validation-split assertion) can raise first. *)
Theorem train_dimension_lock :
  forall (c : collaborators) (a : train_args) (w : world) (n : Z),
    w.(est).(n_observables) = Some n ->
    (snd (train c a w)).(est).(n_observables) = Some n /\
    forall r, fst (train c a w) = Ok r ->
      exists nc rows k,
        dict_get (snd (train c a w)).(input_data) "X_train" = VArr (Mat nc rows) /\
        effective_count w.(est).(features) nc = Some k /\ Z.of_nat k = n.
Proof.
  intros c a w n Hn. split; [exact (train_keeps_set_n_observables c a n w Hn)|].
  intros r Hr. destruct (train c a w) as [res w'] eqn:E. simpl in Hr. subst res. simpl.
  destruct (train_ok_inv c a w w' r E) as (w1 & El & Eb).
  pose proof (lock_kept w.(est).(features) n) as (K1 & K2 & K3). simpl in K1, K2, K3.
  set (Q := fun e => e.(features) = w.(est).(features) /\ e.(n_observables) = Some n).
  assert (Qw1 : Q w1.(est)).
  { pose proof (load_inputs_est Q (required_list ++ optional_list) w (conj eq_refl Hn)) as H.
    rewrite El in H. exact H. }
  assert (Hd : w'.(input_data) = w1.(input_data)).
  { pose proof (train_body_data c a w1.(input_data) w1 eq_refl) as H. rewrite Eb in H. exact H. }
  rewrite Hd. unfold train_body in Eb.
  apply bind_ok_inv in Eb as (d0 & s0 & G0 & Eb). unfold get in G0. injection G0 as <- <-.
  cbv beta zeta in Eb.
  apply bind_ok_inv in Eb as (t0 & s1 & G1 & Eb). unfold lift in G1. injection G1 as Hinf <-.
  destruct t0 as [[xa n_obs] x_val]. cbv beta iota in Eb.
  apply bind_ok_inv in Eb as (meta & s2 & G2 & Eb). unfold lift in G2. injection G2 as _ <-.
  cbv beta in Eb.
  apply bind_ok_inv in Eb as (t1 & s3 & G3 & Eb). destruct t1 as [xa1 x_val1]. cbv beta iota in Eb.
  assert (Qs3 : Q s3.(est)).
  { pose proof (scale_features_est Q K1 a meta (dict_get (input_data w1) "X0_train")
                  (dict_get (input_data w1) "X1_train") xa x_val w1 Qw1) as H.
    rewrite G3 in H. exact H. }
  apply bind_ok_inv in Eb as (e & s4 & G4 & Eb). unfold on_est, get in G4. simpl in G4.
  injection G4 as <- <-. cbv beta in Eb.
  apply bind_ok_inv in Eb as (t2 & s5 & G5 & Eb). unfold lift in G5. injection G5 as Hres <-.
  destruct t2 as [[xa2 n2] x_val2]. cbv beta iota in Eb.
  apply bind_ok_inv in Eb as (u & s6 & G6 & _).
  destruct Qs3 as [Hf3 Hn3]. destruct u.
  pose proof (check_observables_ok n2 n _ s6 Hn3 G6) as Hk.
  pose proof (restrict_train_features_ok _ _ _ _ _ _ _ Hres) as Hc. rewrite Hf3 in Hc.
  destruct (infer_dims_ok _ _ _ _ _ _ Hinf) as [rows Hx].
  exists n_obs, rows, n2. repeat split; assumption.
Qed.

Lemma train_dimension_lock_witness :
  trained_world.(est).(n_observables) = Some 2%Z /\
  (snd (train accepting_collaborators (carl_args true) trained_world)).(est).(n_observables) = Some 2%Z /\
  exists nc rows k,
    dict_get (snd (train accepting_collaborators (carl_args true) trained_world)).(input_data) "X_train"
      = VArr (Mat nc rows) /\
    effective_count trained_world.(est).(features) nc = Some k /\ Z.of_nat k = 2%Z.
Proof.
  assert (Hn : trained_world.(est).(n_observables) = Some 2%Z) by (vm_compute; reflexivity).
  destruct (train_dimension_lock accepting_collaborators (carl_args true) trained_world 2%Z Hn) as [Hk Hok].
  split; [exact Hn|]. split; [exact Hk|].
  apply (Hok [1.0%float]). vm_compute. reflexivity.
Defined.

(** C6 counterexample: after a first [train] on two observables, a second
    [train] on three observables with [scale_inputs] set fails with the
    [ValueError] of the rescaling by the stored two-column stats, not with
    the [RuntimeError] of the count check. *)
Lemma wider_train_fails_in_scaling :
  (est trained_world).(n_observables) = Some 2%Z /\
  effective_count (est trained_world).(features) 3 = Some 3 /\
  fst (train accepting_collaborators (carl_args true) (mkWorld (est trained_world) [] wider_data []))
    = Err (ValueError "operands could not be broadcast together").
Proof. vm_compute. repeat split. Qed.

(** * Further properties of the code *)

(** ** The settings codec *)

Lemma rmap_py_int_JInt (l : list Z) : rmap py_int (map JInt l) = Ok l.
Proof. induction l as [|z l IH]; simpl; [reflexivity | rewrite IH; reflexivity]. Qed.

Lemma unwrap_wellformed (s : list (string * json)) (e0 : estimator) (n p : Z) (h : list Z)
    (a : string) (f : json) (d : float) :
  lookup "estimator_type" s = Some (JStr "double_parameterized_ratio") ->
  lookup "n_observables" s = Some (JInt n) ->
  lookup "n_parameters" s = Some (JInt p) ->
  lookup "n_hidden" s = Some (JList (map JInt h)) ->
  lookup "activation" s = Some (JStr a) ->
  lookup "features" s = Some f ->
  (f = JNull \/ f = JStr "None" \/ exists fs, f = JList (map JInt fs)) ->
  (lookup "dropout_prob" s = None /\ d = 0.0%float \/ lookup "dropout_prob" s = Some (JFloat d)) ->
  RatioEstimator_unwrap_settings s e0 =
    (Ok tt, mkEstimator (if is_None_str f then JNull else f) h a d e0.(model) (Some n) (Some p)
              e0.(x_scaling_means) e0.(x_scaling_stds)).
Proof.
  intros Ht Hn Hp Hh Ha Hf Hfs Hd.
  unfold RatioEstimator_unwrap_settings, Estimator_unwrap_settings.
  unfold bind, lift, modify, get, ret, raise, getitem, rbind.
  rewrite Ht, Hn, Hp, Hh, Ha, Hf. cbn - [lookup].
  rewrite rmap_py_int_JInt.
  destruct Hfs as [-> | [-> | [fs ->]]]; cbn - [lookup];
    try rewrite rmap_py_int_JInt;
    destruct Hd as [[Hd ->] | Hd]; rewrite Hd; reflexivity.
Qed.

Lemma unwrap_wrap (e e0 : estimator) :
  is_some e.(n_observables) = true -> is_some e.(n_parameters) = true ->
  (e.(features) = JNull \/ exists fs, e.(features) = JList (map JInt fs)) ->
  RatioEstimator_unwrap_settings (RatioEstimator_wrap_settings e) e0 =
    (Ok tt, mkEstimator e.(features) e.(n_hidden) e.(activation) e.(dropout_prob) e0.(model)
              e.(n_observables) e.(n_parameters) e0.(x_scaling_means) e0.(x_scaling_stds)).
Proof.
  intros Hn Hp Hf.
  destruct (n_observables e) as [n|] eqn:En; [|discriminate].
  destruct (n_parameters e) as [p|] eqn:Ep; [|discriminate].
  rewrite (unwrap_wellformed _ e0 n p (n_hidden e) (activation e) (features e) (dropout_prob e)).
  - destruct Hf as [Hf | [fs Hf]]; rewrite Hf; reflexivity.
  - reflexivity.
  - simpl. rewrite En. reflexivity.
  - simpl. rewrite Ep. reflexivity.
  - reflexivity.
  - reflexivity.
  - reflexivity.
  - destruct Hf as [Hf | [fs Hf]]; [left | right; right; exists fs]; exact Hf.
  - right. reflexivity.
Qed.

(** X1: [RatioEstimator._unwrap_settings] decodes every well-formed record:
    with the type tag, int counts, a list of ints for [n_hidden], a string
    activation, [features] null, the string ["None"] or a list of ints, and
    [dropout_prob] a float or missing (then 0.0), it returns and sets exactly
    these fields ([features] ["None"] becoming [None]); the model and the
    scaling stats are left as they were. *)
Theorem unwrap_settings_decodes (s : list (string * json)) (e0 : estimator) (n p : Z)
    (h : list Z) (a : string) (f : json) (d : float) :
  lookup "estimator_type" s = Some (JStr "double_parameterized_ratio") ->
  lookup "n_observables" s = Some (JInt n) ->
  lookup "n_parameters" s = Some (JInt p) ->
  lookup "n_hidden" s = Some (JList (map JInt h)) ->
  lookup "activation" s = Some (JStr a) ->
  lookup "features" s = Some f ->
  (f = JNull \/ f = JStr "None" \/ exists fs, f = JList (map JInt fs)) ->
  (lookup "dropout_prob" s = None /\ d = 0.0%float \/ lookup "dropout_prob" s = Some (JFloat d)) ->
  RatioEstimator_unwrap_settings s e0 =
    (Ok tt, mkEstimator (if is_None_str f then JNull else f) h a d e0.(model) (Some n) (Some p)
              e0.(x_scaling_means) e0.(x_scaling_stds)).
Proof. exact (unwrap_wellformed s e0 n p h a f d). Qed.

Lemma unwrap_settings_decodes_witness :
  RatioEstimator_unwrap_settings legacy_settings RatioEstimator_default =
    (Ok tt, mkEstimator (if is_None_str (JStr "None") then JNull else JStr "None") [8%Z; 4%Z] "relu"
              0.0%float RatioEstimator_default.(model) (Some 3%Z) (Some 1%Z)
              RatioEstimator_default.(x_scaling_means) RatioEstimator_default.(x_scaling_stds)).
Proof.
  apply (unwrap_settings_decodes legacy_settings RatioEstimator_default 3 1 [8%Z; 4%Z] "relu"
           (JStr "None") 0.0%float); try reflexivity.
  - right. left. reflexivity.
  - left. split; reflexivity.
Defined.

(** X2: what [RatioEstimator._wrap_settings] writes, [_unwrap_settings] reads
    back: for an estimator whose [n_observables] and [n_parameters] are set
    and whose [features] is [None] or a list of ints, decoding its settings
    into any estimator returns and copies [features], [n_hidden],
    [activation], [dropout_prob] and both counts. *)
Theorem wrap_unwrap_settings_round_trip (e e0 : estimator) :
  is_some e.(n_observables) = true -> is_some e.(n_parameters) = true ->
  (e.(features) = JNull \/ exists fs, e.(features) = JList (map JInt fs)) ->
  RatioEstimator_unwrap_settings (RatioEstimator_wrap_settings e) e0 =
    (Ok tt, mkEstimator e.(features) e.(n_hidden) e.(activation) e.(dropout_prob) e0.(model)
              e.(n_observables) e.(n_parameters) e0.(x_scaling_means) e0.(x_scaling_stds)).
Proof. exact (unwrap_wrap e e0). Qed.

Lemma wrap_unwrap_settings_round_trip_witness :
  RatioEstimator_unwrap_settings (RatioEstimator_wrap_settings saved_estimator) RatioEstimator_default =
    (Ok tt, mkEstimator saved_estimator.(features) saved_estimator.(n_hidden)
              saved_estimator.(activation) saved_estimator.(dropout_prob)
              RatioEstimator_default.(model) saved_estimator.(n_observables)
              saved_estimator.(n_parameters) RatioEstimator_default.(x_scaling_means)
              RatioEstimator_default.(x_scaling_stds)).
Proof.
  apply wrap_unwrap_settings_round_trip; try reflexivity.
  right. exists [0%Z; 1%Z]. reflexivity.
Defined.

(** X3: the base [Estimator._wrap_settings] writes no [estimator_type], so the
    base [_unwrap_settings] refuses its own output with the
    configuration-compatibility [RuntimeError], leaving the estimator as it
    was. *)
Theorem base_codec_refuses_own_settings (e e0 : estimator) :
  Estimator_unwrap_settings (Estimator_wrap_settings e) e0 = (Err (RuntimeError missing_type_msg), e0).
Proof. apply Estimator_unwrap_settings_missing_tag. reflexivity. Qed.

(** ** Persistence *)

Lemma zlist_eqb_refl (l : list Z) : zlist_eqb l l = true.
Proof. induction l as [|z l IH]; simpl; [reflexivity | rewrite Z.eqb_refl, IH; reflexivity]. Qed.

(** X4: [save] then [load] restores the estimator: if the estimator has a
    model of its own configuration, both counts, [features] [None] or a list
    of ints and both scaling stats, then loading what [save] wrote, into any
    estimator, returns and leaves the saved estimator with a fresh
    [RatioModel] of the saved configuration carrying the saved learned
    parameters. *)
Theorem save_load_round_trip (prefix : string) (save_model : bool) (w w1 : world) (e0 : estimator)
    (m : ratio_model) (d : list (string * pyval)) (cs : list ext_call) :
  w.(est).(model) = Some m ->
  m.(rm_n_observables) = w.(est).(n_observables) ->
  m.(rm_n_hidden) = w.(est).(n_hidden) ->
  is_some w.(est).(n_observables) = true ->
  is_some w.(est).(n_parameters) = true ->
  (w.(est).(features) = JNull \/ exists fs, w.(est).(features) = JList (map JInt fs)) ->
  is_some w.(est).(x_scaling_means) = true ->
  is_some w.(est).(x_scaling_stds) = true ->
  save prefix save_model w = (Ok tt, w1) ->
  load prefix (mkWorld e0 w1.(fs) d cs) =
    (Ok tt, mkWorld (set_model (Some (mkRatioModel w.(est).(n_observables) w.(est).(n_hidden)
                                        w.(est).(activation) w.(est).(dropout_prob) m.(rm_params)))
                               w.(est))
                    w1.(fs) d cs).
Proof.
  intros Hm Hmn Hmh Hn Hp Hf Hmu Hs Hsave.
  destruct (x_scaling_means (est w)) as [mu|] eqn:Emu; [|discriminate].
  destruct (x_scaling_stds (est w)) as [sd|] eqn:Esd; [|discriminate].
  assert (HF : exists F, w1.(fs) = F /\
     lookup (prefix ++ "_settings.json") F = Some (FJson (JObj (RatioEstimator_wrap_settings w.(est)))) /\
     lookup (prefix ++ "_x_means.npy") F = Some (FArr (Vec mu)) /\
     lookup (prefix ++ "_x_stds.npy") F = Some (FArr (Vec sd)) /\
     lookup (prefix ++ "_state_dict.pt") F = Some (FState (model_state_dict m))).
  { exists w1.(fs). split; [reflexivity|].
    unfold save, bind, get, write_file, modify, ret in Hsave.
    rewrite Hm, Emu, Esd in Hsave. simpl in Hsave.
    assert (Ne : forall a b, a <> b -> (prefix ++ a)%string <> (prefix ++ b)%string)
      by (intros; apply append_neq_l; assumption).
    destruct save_model; injection Hsave as <-; simpl;
      repeat split; repeat (rewrite lookup_setitem_neq by (apply Ne; discriminate));
      apply lookup_setitem_eq. }
  destruct HF as [F [-> [H1 [H2 [H3 H4]]]]].
  unfold load, read_file, bind, get, ret, lift, on_est, raise. cbn [fs est].
  rewrite H1. cbn - [RatioEstimator_unwrap_settings RatioEstimator_wrap_settings lookup].
  rewrite unwrap_wrap by assumption.
  cbn - [lookup]. rewrite H2. cbn - [lookup]. rewrite H3. cbn - [lookup].
  rewrite H4. cbn. unfold load_state_dict, model_state_dict. cbn.
  rewrite Hmn, Hmh, zlist_eqb_refl.
  destruct (n_observables (est w)) as [n|] eqn:En; [|discriminate]. rewrite Z.eqb_refl. cbn.
  unfold set_model. cbn. rewrite <- Emu, <- Esd, <- En. destruct (est w); reflexivity.
Qed.

Lemma save_load_round_trip_witness :
  load "model" (mkWorld RatioEstimator_default (snd (save "model" false saved_world)).(fs) [] []) =
    (Ok tt, mkWorld (set_model (Some (mkRatioModel saved_world.(est).(n_observables)
                                        saved_world.(est).(n_hidden) saved_world.(est).(activation)
                                        saved_world.(est).(dropout_prob) saved_model.(rm_params)))
                               saved_world.(est))
                    (snd (save "model" false saved_world)).(fs) [] []).
Proof.
  apply (save_load_round_trip "model" false saved_world (snd (save "model" false saved_world))
           RatioEstimator_default saved_model [] []); try reflexivity.
  - right. exists [0%Z; 1%Z]. reflexivity.
Defined.

(** X5: [save] writes only its own files: every path other than the
    settings file, the state dict, the model file (when [save_model] is set)
    and, when both scaling stats are set, the two scaling files, keeps what
    it held; so without both stats, scaling files of an earlier save stay
    in place. [save] changes neither the estimator nor the caller's data. *)
Theorem save_frame (prefix : string) (save_model : bool) (w : world) (k : string) :
  k <> (prefix ++ "_settings.json")%string ->
  k <> (prefix ++ "_state_dict.pt")%string ->
  (save_model = true -> k <> (prefix ++ "_model.pt")%string) ->
  (is_some w.(est).(x_scaling_stds) && is_some w.(est).(x_scaling_means) = true ->
     k <> (prefix ++ "_x_means.npy")%string /\ k <> (prefix ++ "_x_stds.npy")%string) ->
  lookup k (snd (save prefix save_model w)).(fs) = lookup k w.(fs) /\
  (snd (save prefix save_model w)).(est) = w.(est) /\
  (snd (save prefix save_model w)).(input_data) = w.(input_data) /\
  (snd (save prefix save_model w)).(calls) = w.(calls).
Proof.
  intros H1 H2 H3 H4. unfold save, bind, get, write_file, modify, ret, raise.
  destruct (model (est w)) as [m|]; [|repeat split].
  destruct (x_scaling_stds (est w)) as [s|], (x_scaling_means (est w)) as [mu|];
    simpl in H4; try destruct (H4 eq_refl) as [H5 H6];
    destruct save_model; simpl; repeat split;
    repeat rewrite lookup_setitem_neq by auto; reflexivity.
Qed.

Lemma save_frame_witness :
  lookup "other.npy" (snd (save "model" true saved_world)).(fs) = lookup "other.npy" saved_world.(fs) /\
  (snd (save "model" true saved_world)).(est) = saved_world.(est) /\
  (snd (save "model" true saved_world)).(input_data) = saved_world.(input_data) /\
  (snd (save "model" true saved_world)).(calls) = saved_world.(calls).
Proof.
  apply save_frame.
  - intros H. vm_compute in H. discriminate H.
  - intros H. vm_compute in H. discriminate H.
  - intros _ H. vm_compute in H. discriminate H.
  - intros _. split; intros H; vm_compute in H; discriminate H.
Defined.

(** X6: [load] without a settings file raises [FileNotFoundError] for it and
    changes nothing. *)
Theorem load_missing_settings (prefix : string) (w : world) :
  lookup (prefix ++ "_settings.json") w.(fs) = None ->
  load prefix w = (Err (FileNotFoundError (prefix ++ "_settings.json")), w).
Proof.
  intros H. unfold load, read_file, bind, get, raise. rewrite H. reflexivity.
Qed.

Lemma load_missing_settings_witness :
  load "model" saved_world = (Err (FileNotFoundError ("model" ++ "_settings.json")), saved_world).
Proof. apply load_missing_settings. reflexivity. Defined.

(** X7: after a [load] that returns, the input scaling stats are both set or
    both unset: a means file without a stds file leaves neither. *)
Theorem load_scaling_paired (prefix : string) (w w' : world) :
  load prefix w = (Ok tt, w') ->
  is_some w'.(est).(x_scaling_means) = is_some w'.(est).(x_scaling_stds).
Proof.
  intros H. unfold load in H.
  peel H. peel H. peel H. peel H. peel H. unfold get in Hstep3. injection Hstep3 as <- <-.
  peel H.
  assert (P3 : is_some s3.(est).(x_scaling_means) = is_some s3.(est).(x_scaling_stds)).
  { unfold bind, lift, set_x_scaling_w, on_est, modify in Hstep3.
    destruct (lookup (prefix ++ "_x_means.npy") (fs s2)) as [fm|].
    - destruct (np_load_vec fm) as [mu|err]; [|discriminate Hstep3].
      destruct (lookup (prefix ++ "_x_stds.npy") (fs s2)) as [fsd|]; simpl in Hstep3.
      + destruct (np_load_vec fsd) as [sd|err]; [|discriminate Hstep3].
        injection Hstep3 as _ <-. reflexivity.
      + injection Hstep3 as _ <-. reflexivity.
    - injection Hstep3 as _ <-. reflexivity. }
  match type of H with ?m s3 = _ =>
    assert (Hrest : preserves (fun w => is_some w.(est).(x_scaling_means) = is_some w.(est).(x_scaling_stds)) m)
  end.
  { unfold read_file.
    repeat match goal with
    | |- preserves _ (bind _ _) => apply preserves_bind; [ | intro ]
    | |- preserves _ (match ?x with _ => _ end) => destruct x
    | |- preserves _ (on_est _) =>
        apply (preserves_on_est_est (fun e => is_some e.(x_scaling_means) = is_some e.(x_scaling_stds)))
    | |- preserves _ (modify _) => apply preserves_modify; intros ? ?
    end; simpl; auto with preserves. }
  pose proof (Hrest s3 P3) as X. rewrite H in X. exact X.
Qed.

Lemma load_scaling_paired_witness :
  is_some (snd (load "model" (mkWorld RatioEstimator_default (snd (save "model" false saved_world)).(fs) [] [])))
            .(est).(x_scaling_means) =
  is_some (snd (load "model" (mkWorld RatioEstimator_default (snd (save "model" false saved_world)).(fs) [] [])))
            .(est).(x_scaling_stds).
Proof.
  apply (load_scaling_paired "model"
           (mkWorld RatioEstimator_default (snd (save "model" false saved_world)).(fs) [] [])).
  vm_compute. reflexivity.
Defined.

(** X8: [load] is not atomic: once the settings decode, the configuration
    and a fresh [RatioModel] built from it are in place, and a missing state
    dict file then makes [load] raise with the estimator left reconfigured
    (the scaling stats as the scaling step left them). *)
Theorem load_not_atomic (prefix : string) (w : world) (s : list (string * json)) (e1 : estimator) :
  lookup (prefix ++ "_settings.json") w.(fs) = Some (FJson (JObj s)) ->
  RatioEstimator_unwrap_settings s w.(est) = (Ok tt, e1) ->
  lookup (prefix ++ "_state_dict.pt") w.(fs) = None ->
  is_err (fst (load prefix w)) = true /\
  exists mu sd,
    (snd (load prefix w)).(est) =
      set_x_scaling mu sd (set_model (Some (RatioModel e1.(n_observables) e1.(n_hidden)
                                              e1.(activation) e1.(dropout_prob))) e1) /\
    (snd (load prefix w)).(fs) = w.(fs).
Proof.
  intros H1 H2 H3.
  unfold load, read_file, bind, get, ret, lift, raise, on_est, set_x_scaling_w, modify.
  rewrite H1. cbn - [RatioEstimator_unwrap_settings lookup]. rewrite H2. cbn - [lookup].
  destruct (lookup (prefix ++ "_x_means.npy") (fs w)) as [fm|]; cbn - [lookup];
    [destruct (np_load_vec fm) as [mu|err]; cbn - [lookup];
     [destruct (lookup (prefix ++ "_x_stds.npy") (fs w)) as [fsd|]; cbn - [lookup];
      [destruct (np_load_vec fsd) as [sd|err]; cbn - [lookup] | ] | ] | ];
    try rewrite H3; (split; [reflexivity|]; do 2 eexists; split; reflexivity).
Qed.

Lemma load_not_atomic_witness :
  let w := mkWorld RatioEstimator_default
             [("model_settings.json", FJson (JObj (RatioEstimator_wrap_settings saved_estimator)))] [] [] in
  let e1 := snd (RatioEstimator_unwrap_settings (RatioEstimator_wrap_settings saved_estimator)
                   RatioEstimator_default) in
  is_err (fst (load "model" w)) = true /\
  exists mu sd,
    (snd (load "model" w)).(est) =
      set_x_scaling mu sd (set_model (Some (RatioModel e1.(n_observables) e1.(n_hidden)
                                              e1.(activation) e1.(dropout_prob))) e1) /\
    (snd (load "model" w)).(fs) = w.(fs).
Proof.
  intros w e1.
  apply (load_not_atomic "model" w (RatioEstimator_wrap_settings saved_estimator) e1).
  - reflexivity.
  - vm_compute. reflexivity.
  - reflexivity.
Defined.

(** ** Training *)

(** X9: [train] without one of the required keys raises the [KeyError] and
    changes nothing: no value of the caller's dictionary is loaded, and the
    estimator, the files and the loss-factory log are as before. *)
Theorem train_missing_required_key (c : collaborators) (a : train_args) (w : world) :
  forallb (fun k => has_key k w.(input_data)) required_list = false ->
  train c a w = (Err (KeyError "Unable to look up all required data, please have at least prepared with keys ['X_train', 'y_train', 'w_train']"), w).
Proof.
  intros H. unfold train, check_required, bind, get, raise. cbv beta. rewrite H. reflexivity.
Qed.

Lemma train_missing_required_key_witness :
  train accepting_collaborators (carl_args true)
        (mkWorld RatioEstimator_default example_files [("X_train", VPath "x1.npy")] []) =
  (Err (KeyError "Unable to look up all required data, please have at least prepared with keys ['X_train', 'y_train', 'w_train']"),
   mkWorld RatioEstimator_default example_files [("X_train", VPath "x1.npy")] []).
Proof. apply train_missing_required_key. reflexivity. Defined.

Lemma check_observables_sets (n : nat) (s s' : world) (u : unit) :
  check_observables n s = (Ok u, s') -> is_some s'.(est).(n_observables) = true.
Proof.
  intros H. unfold check_observables, bind, on_est, modify, get, ret, raise in H. simpl in H.
  destruct (n_observables (est s)) as [k|] eqn:E; simpl in H.
  - rewrite E in H. destruct (Z.eqb (Z.of_nat n) k); [|discriminate H].
    injection H as _ <-. simpl. rewrite E. reflexivity.
  - rewrite Z.eqb_refl in H. injection H as _ <-. reflexivity.
Qed.

Lemma fit_ok_model (c : collaborators) (s s' : world) (r : list float) :
  fit c s = (Ok r, s') -> is_some s'.(est).(model) = true.
Proof.
  unfold fit, bind, on_est, get, lift, modify, ret, raise. simpl.
  destruct (model (est s)); [|discriminate].
  destruct (trainer_train c r0) as [p|err]; [|discriminate].
  intros H. injection H as _ <-. reflexivity.
Qed.

(** X10: a [train] call that returns leaves the estimator with a model and an
    observable count, so [save] and the evaluation methods no longer refuse
    it for want of a model. *)
Theorem train_ok_configured (c : collaborators) (a : train_args) (w w' : world) (r : list float) :
  train c a w = (Ok r, w') ->
  is_some w'.(est).(model) = true /\ is_some w'.(est).(n_observables) = true.
Proof.
  intros H. destruct (train_ok_inv c a w w' r H) as (w1 & _ & Eb).
  unfold train_body in Eb.
  apply bind_ok_inv in Eb as (d0 & s0 & _ & Eb). cbv beta zeta in Eb.
  apply bind_ok_inv in Eb as (t0 & s1 & _ & Eb). destruct t0 as [[xa n_obs] x_val]. cbv beta iota in Eb.
  apply bind_ok_inv in Eb as (meta & s2 & _ & Eb). cbv beta in Eb.
  apply bind_ok_inv in Eb as (t1 & s3 & _ & Eb). destruct t1 as [xa1 x_val1]. cbv beta iota in Eb.
  apply bind_ok_inv in Eb as (e & s4 & _ & Eb). cbv beta in Eb.
  apply bind_ok_inv in Eb as (t2 & s5 & _ & Eb). destruct t2 as [[xa2 n2] x_val2]. cbv beta iota in Eb.
  apply bind_ok_inv in Eb as (u & s6 & G6 & Eb). cbv beta in Eb.
  pose proof (check_observables_sets _ _ _ _ G6) as N6.
  match type of Eb with ?m s6 = _ =>
    assert (Hrest : preserves (fun w => is_some w.(est).(n_observables) = true) m) end.
  { unfold create_model_if_missing, _create_model, losses, log_call, fit.
    repeat match goal with
    | |- preserves _ (bind _ _) => apply preserves_bind; [ | intro ]
    | |- preserves _ (match ?x with _ => _ end) => destruct x
    | |- preserves _ (on_est _) =>
        apply (preserves_on_est_est (fun e => is_some e.(n_observables) = true))
    | |- preserves _ (modify _) => apply preserves_modify; intros ? ?
    end; simpl; auto with preserves. }
  pose proof (Hrest s6 N6) as N. rewrite Eb in N. split; [|exact N].
  apply bind_ok_inv in Eb as (u1 & s7 & _ & Eb).
  apply bind_ok_inv in Eb as (u2 & s8 & _ & Eb).
  apply bind_ok_inv in Eb as (u3 & s9 & _ & Eb).
  apply bind_ok_inv in Eb as (u4 & s10 & _ & Eb).
  exact (fit_ok_model c s10 w' r Eb).
Qed.

Lemma train_ok_configured_witness :
  is_some trained_world.(est).(model) = true /\ is_some trained_world.(est).(n_observables) = true.
Proof.
  apply (train_ok_configured accepting_collaborators (carl_args true) example_world trained_world
           [1.0%float]).
  unfold trained_world. vm_compute. reflexivity.
Defined.

(** ** The scalers *)

(** X11: after [initialize_input_transform(x, transform=False)], which sizes
    the identity stats by the row count, [_transform_inputs(x)] on the same
    [x] raises the broadcast [ValueError] whenever the row count differs
    from the column count and neither is 1. *)
Theorem identity_scaling_breaks_transform (nc : nat) (rows : list (list float)) (e : estimator) :
  length rows <> nc -> length rows <> 1 -> nc <> 1 ->
  _transform_inputs (initialize_input_transform nc rows false true e) (Mat nc rows) =
    Err (ValueError "operands could not be broadcast together").
Proof.
  intros H1 H2 H3. unfold initialize_input_transform, _transform_inputs, sub_vec, bcast_ok.
  rewrite andb_false_r. simpl. rewrite repeat_length.
  replace (Nat.eqb nc (length rows)) with false by (symmetry; apply Nat.eqb_neq; auto).
  replace (Nat.eqb (length rows) 1) with false by (symmetry; apply Nat.eqb_neq; auto).
  replace (Nat.eqb nc 1) with false by (symmetry; apply Nat.eqb_neq; auto).
  reflexivity.
Qed.

Lemma identity_scaling_breaks_transform_witness :
  _transform_inputs (initialize_input_transform 3 [[1; 2; 3]; [4; 5; 6]]%float false true
                       RatioEstimator_default) (Mat 3 [[1; 2; 3]; [4; 5; 6]]%float) =
    Err (ValueError "operands could not be broadcast together").
Proof. apply identity_scaling_breaks_transform; simpl; lia. Defined.

Lemma map2_length (f : float -> float -> float) (a b : list float) :
  length (map2 f a b) = Nat.min (length a) (length b).
Proof.
  revert b. induction a as [|x a IH]; intros [|y b]; simpl; auto.
Qed.

Lemma bcast_length_eq (f : float -> float -> float) (a b : list float) :
  length a = length b -> length (bcast f a b) = length a.
Proof.
  intros H. unfold bcast. rewrite H, Nat.eqb_refl, map2_length, H. apply Nat.min_id.
Qed.

(** X12: [_transform_inputs] keeps the shape: with stats of the column count
    [nc], a 2-d array of [nc] columns comes back as a 2-d array with as many
    rows, each of [nc] entries. *)
Theorem transform_inputs_shape (e : estimator) (nc : nat) (rows : list (list float))
    (m s : list float) :
  e.(x_scaling_means) = Some m -> e.(x_scaling_stds) = Some s ->
  length m = nc -> length s = nc -> Forall (fun r => length r = nc) rows ->
  exists rows', _transform_inputs e (Mat nc rows) = Ok (Mat nc rows') /\
    length rows' = length rows /\ Forall (fun r => length r = nc) rows'.
Proof.
  intros Hm Hs Hlm Hls Hr. unfold _transform_inputs. rewrite Hm, Hs.
  unfold sub_vec, bcast_ok. rewrite Hlm, Nat.eqb_refl. simpl.
  replace (bcast_len nc nc) with nc by (unfold bcast_len; destruct (Nat.eqb nc 1); reflexivity).
  unfold idiv_vec. rewrite Hls, Nat.eqb_refl. simpl.
  eexists. split; [reflexivity|]. rewrite !length_map. split; [reflexivity|].
  apply Forall_map, Forall_map. eapply Forall_impl; [|exact Hr].
  intros r Hr1. rewrite !bcast_length_eq; rewrite ?bcast_length_eq; congruence.
Qed.

Lemma transform_inputs_shape_witness :
  exists rows', _transform_inputs saved_estimator (Mat 2 [[1; 2]; [3; 4]; [5; 6]]%float) = Ok (Mat 2 rows') /\
    length rows' = length [[1; 2]; [3; 4]; [5; 6]]%float /\ Forall (fun r => length r = 2) rows'.
Proof.
  apply (transform_inputs_shape saved_estimator 2 _ [1.0; 2.0]%float [0.5; 0.5]%float);
    try reflexivity.
  repeat constructor.
Defined.

(** X13: unlike [_transform_inputs], [ConditionalEstimator._transform_parameters]
    turns a 1-d parameter point into a 2-d array of one row: with theta stats
    of its length, [theta - means[np.newaxis, :]] broadcasts to shape
    [(1, k)], which the division keeps. *)
Theorem transform_parameters_vector_to_row (c : cond_estimator) (theta m s : list float) :
  c.(theta_scaling_means) = Some m -> c.(theta_scaling_stds) = Some s ->
  length m = length theta -> length s = length theta ->
  _transform_parameters c (Vec theta) =
    Ok (Mat (length theta) [bcast PrimFloat.div (bcast PrimFloat.sub theta m) s]).
Proof.
  intros Hm Hs Hlm Hls. unfold _transform_parameters, sub_row, idiv_vec, bcast_ok, bcast_len.
  rewrite Hm, Hs. rewrite Hlm, Nat.eqb_refl. simpl.
  destruct (Nat.eqb (length theta) 1) eqn:E1; rewrite Hls, Nat.eqb_refl; reflexivity.
Qed.

Lemma transform_parameters_vector_to_row_witness :
  _transform_parameters (mkCondEstimator RatioEstimator_default (Some [1.0; 2.0]%float)
                           (Some [2.0; 4.0]%float)) (Vec [3.0; 6.0]%float) =
    Ok (Mat (length [3.0; 6.0]%float)
            [bcast PrimFloat.div (bcast PrimFloat.sub [3.0; 6.0]%float [1.0; 2.0]%float) [2.0; 4.0]%float]).
Proof. apply transform_parameters_vector_to_row; reflexivity. Defined.

Lemma SF_not_lt_pos (A : spec_float) (mF : positive) (eF : Z) :
  A <> S754_nan -> SFltb A (S754_finite false mF eF) = false ->
  SFleb (S754_finite false mF eF) A = true.
Proof.
  intros Hn Hl. unfold SFltb, SFleb in *.
  destruct A as [s|s| |s m e]; simpl in *.
  - discriminate Hl.
  - destruct s; [discriminate Hl | reflexivity].
  - contradiction.
  - destruct s; [discriminate Hl|].
    rewrite (Z.compare_antisym e eF).
    destruct (Z.compare e eF) eqn:Ez; simpl; try reflexivity; try discriminate Hl.
    pose proof (Pos.compare_cont_antisym m mF Eq) as Ha. simpl in Ha. rewrite <- Ha.
    destruct (Pos.compare_cont Eq m mF); simpl; try reflexivity; discriminate Hl.
Qed.

Lemma np_maximum_floor (a : float) :
  is_nan (np_maximum a std_floor) = true \/ (std_floor <=? np_maximum a std_floor)%float = true.
Proof.
  unfold np_maximum. destruct (is_nan a) eqn:Na; [left; exact Na|].
  assert (Nf : is_nan std_floor = false) by reflexivity. rewrite Nf.
  destruct (a <? std_floor)%float eqn:L; right; [reflexivity|].
  rewrite FloatAxioms.leb_spec. rewrite FloatAxioms.ltb_spec in L.
  assert (An : Prim2SF a <> S754_nan).
  { intros E. unfold is_nan in Na. rewrite FloatAxioms.eqb_spec, E in Na. discriminate Na. }
  remember (Prim2SF std_floor) as F eqn:HF.
  destruct F as [s|s| |s mF eF]; try (vm_compute in HF; discriminate HF).
  destruct s; [vm_compute in HF; discriminate HF|].
  exact (SF_not_lt_pos _ mF eF An L).
Qed.

(** X14: when [initialize_input_transform(x, transform=True)] computes the
    stats (with [overwrite], or when they are not both set yet), every std is
    at least 1e-6 or NaN: the floor [np.maximum(std, 1e-6)] leaves no zero
    divisor for [_transform_inputs]. *)
Theorem input_transform_std_floor (nc : nat) (rows : list (list float)) (overwrite : bool)
    (e : estimator) :
  (overwrite = true \/ e.(x_scaling_stds) = None \/ e.(x_scaling_means) = None) ->
  exists stds, (initialize_input_transform nc rows true overwrite e).(x_scaling_stds) = Some stds /\
    Forall (fun s => is_nan s = true \/ (std_floor <=? s)%float = true) stds.
Proof.
  intros Hg. unfold initialize_input_transform.
  replace (is_some (x_scaling_stds e) && is_some (x_scaling_means e) && negb overwrite)%bool with false
    by (destruct Hg as [-> | [-> | ->]]; simpl; rewrite ?andb_false_r; reflexivity).
  eexists. split; [reflexivity|].
  apply Forall_map, Forall_forall. intros s _. apply np_maximum_floor.
Qed.

Lemma input_transform_std_floor_witness :
  exists stds, (initialize_input_transform 2 [[1; 2]; [1; 4]]%float true false RatioEstimator_default)
                 .(x_scaling_stds) = Some stds /\
    Forall (fun s => is_nan s = true \/ (std_floor <=? s)%float = true) stds.
Proof. apply input_transform_std_floor. right. left. reflexivity. Defined.

(** ** The driver script *)



